(** * send_location.py: ThingsBoard location telemetry sender

    A shallow embedding of [send_location.py] and the properties of its
    three functions: [send_telemetry], [simulate_movement] and [main].

    Modelling conventions.
    - Python floats (latitude, longitude, battery, clock readings) are
      rationals [Q] with exact arithmetic; Python ints are [Z].
    - The outside world (wall clock, random generator, network, console)
      is an explicit [World] value threaded through a state-and-exception
      monad [M].  The random generator and the network are oracles: the
      world holds what every future draw and every future POST will give.
    - A printed line is kept as its template together with the values
      interpolated in it, not as rendered text. *)

From Stdlib Require Import ZArith QArith Qround Qabs String DecimalString List Bool
  Lia Lqa Sorted.
Import ListNotations.

Set Implicit Arguments.

(* ================================================================== *)
(** * Numbers as Python computes them *)

Module Py.

(** [x < y] on floats, as a boolean. *)
Definition ltb (x y : Q) : bool := negb (Qle_bool y x).

(** [int(x)]: truncation towards zero. *)
Definition int (x : Q) : Z := Z.quot (Qnum x) (Zpos (Qden x)).

(** [max(a, b)] on two arguments: the first one unless the second is
    strictly larger. *)
Definition max (a b : Q) : Q := if ltb a b then b else a.

(** Nearest integer, ties to even. *)
Definition round_half_even (x : Q) : Z :=
  let f := Qfloor x in
  match Qcompare (x - inject_Z f) (1 # 2) with
  | Lt => f
  | Gt => (f + 1)%Z
  | Eq => if Z.even f then f else (f + 1)%Z
  end.

(** [round(x, ndigits)]. *)
Definition round (x : Q) (ndigits : Z) : Q :=
  let scale := Qpower (inject_Z 10) ndigits in
  inject_Z (round_half_even (x * scale)) / scale.

(** Truth value of an optional int ([if args.batt:]): [None] and [0]
    are false. *)
Definition truthy_int (o : option Z) : bool :=
  match o with
  | None => false
  | Some z => negb (Z.eqb z 0)
  end.

End Py.

(* ================================================================== *)
(** * JSON objects and Python dicts *)

Inductive JValue : Type :=
| JStr (s : string)
| JInt (z : Z)
| JNum (q : Q).

(** A dict keeps its keys in insertion order. *)
Definition Dict : Type := list (string * JValue).

(** [d[k] = v]: replaces the value of an existing key in place, appends a
    new key. *)
Fixpoint dict_set (d : Dict) (k : string) (v : JValue) : Dict :=
  match d with
  | [] => [(k, v)]
  | (k', v') :: rest =>
      if String.eqb k' k then (k', v) :: rest
      else (k', v') :: dict_set rest k v
  end.

Fixpoint dict_get (d : Dict) (k : string) : option JValue :=
  match d with
  | [] => None
  | (k', v') :: rest => if String.eqb k' k then Some v' else dict_get rest k
  end.

(** The document [json.dumps] writes for a dict: one member per key, in
    the dict's order. *)
Inductive Json : Type :=
| JObject (members : list (string * JValue)).

Definition json_dumps (d : Dict) : Json := JObject d.

Definition json_members (j : Json) : list (string * JValue) :=
  match j with JObject ms => ms end.

(** The serialized object has a member named [k]. *)
Definition json_has (j : Json) (k : string) : Prop :=
  In k (map fst (json_members j)).

Definition json_member (j : Json) (k : string) : option JValue :=
  dict_get (json_members j) k.

(* ================================================================== *)
(** * HTTP, exceptions, console *)

(** A response as [requests] hands it over: the status code and the
    reason phrase of the status line, the URL the response came from, and
    the body. *)
Record Response : Type := mkResponse {
  status_code : Z;
  reason : string;
  url : string;
  text : string
}.

Inductive RequestException : Type :=
| ConnectionError
| Timeout
| TooManyRedirects
| HTTPError (r : Response).

Inductive Exn : Type :=
| RequestExn (e : RequestException)
| ValueError (msg : string)
| SystemExit (code : Z).

(** [str(e)] for the exceptions of [requests]: the text line 68 puts in
    its diagnostic.  The message [raise_for_status] gives an [HTTPError]
    is [<status> Client Error: <reason> for url: <url>] ([Server Error]
    from 500 on): the status code, the reason phrase and the URL of the
    response, not its body. *)
Inductive ErrorText : Type :=
| Text_connection_error
| Text_timeout
| Text_too_many_redirects
| Text_http_error (code : Z) (reason_phrase : string) (response_url : string).

Definition str_exception (e : RequestException) : ErrorText :=
  match e with
  | ConnectionError => Text_connection_error
  | Timeout => Text_timeout
  | TooManyRedirects => Text_too_many_redirects
  | HTTPError r => Text_http_error (status_code r) (reason r) (url r)
  end.

Record Request : Type := mkRequest {
  req_url : string;
  req_headers : list (string * string);
  req_data : Json
}.

(** What one POST comes back with. *)
Inductive PostOutcome : Type :=
| Responded (r : Response)
| Failed (e : RequestException).

Inductive Line : Type :=
| L_error_sending (message : ErrorText)
| L_starting
| L_initial_position (lat lon : Q)
| L_duration_interval (duration interval : Q)
| L_rule
| L_update (timestamp : Q) (n : Z) (lat lon : Q) (batt acc : Z)
| L_failed_update (n : Z)
| L_complete (n : Z)
| L_sending_to (server : string)
| L_success
| L_latitude (lat : Q)
| L_longitude (lon : Q)
| L_battery (batt : Z)
| L_accuracy (acc : Z)
| L_altitude (alt : Z)
| L_failed
| L_status_code (code : Z)
| L_response (body : string)
| L_help.

(* ================================================================== *)
(** * The world and the monad *)

Record World : Type := mkWorld {
  clock : Q;                          (* what [time.time()] reads now *)
  rng : nat -> Q;                     (* the n-th [random.random()] *)
  rng_pos : nat;                      (* draws consumed so far *)
  net : nat -> PostOutcome * Q;       (* the n-th POST: outcome, seconds taken *)
                                      (* (the time its iteration takes apart
                                         from the sleep) *)
  exchanges : list (Request * PostOutcome);   (* POSTs made so far *)
  stdout : list Line;
  stderr : list string
}.

Inductive Res (A : Type) : Type :=
| Done (a : A) (w : World)
| Raised (e : Exn) (w : World)
| Diverge.

Arguments Done {A} a w.
Arguments Raised {A} e w.
Arguments Diverge {A}.

Definition M (A : Type) : Type := World -> Res A.

Definition ret {A} (a : A) : M A := fun w => Done a w.

Definition bind {A B} (m : M A) (k : A -> M B) : M B :=
  fun w =>
    match m w with
    | Done a w' => k a w'
    | Raised e w' => Raised e w'
    | Diverge => Diverge
    end.

Definition raise {A} (e : Exn) : M A := fun w => Raised e w.

Declare Scope monad_scope.
Delimit Scope monad_scope with monad.
Notation "x <- m ;; k" := (bind m (fun x => k))
  (at level 61, m at next level, right associativity) : monad_scope.
Notation "m ;; k" := (bind m (fun _ => k))
  (at level 61, right associativity) : monad_scope.
Open Scope monad_scope.

(** [try: body / except requests.exceptions.RequestException as e: handler]. *)
Definition try_except_RequestException {A}
    (body : M A) (handler : RequestException -> M A) : M A :=
  fun w =>
    match body w with
    | Raised (RequestExn e) w' => handler e w'
    | r => r
    end.

Definition set_clock (w : World) (t : Q) : World :=
  mkWorld t (rng w) (rng_pos w) (net w) (exchanges w) (stdout w) (stderr w).

Definition set_rng_pos (w : World) (n : nat) : World :=
  mkWorld (clock w) (rng w) n (net w) (exchanges w) (stdout w) (stderr w).

Definition set_exchanges (w : World) (l : list (Request * PostOutcome)) : World :=
  mkWorld (clock w) (rng w) (rng_pos w) (net w) l (stdout w) (stderr w).

Definition set_stdout (w : World) (l : list Line) : World :=
  mkWorld (clock w) (rng w) (rng_pos w) (net w) (exchanges w) l (stderr w).

Definition set_stderr (w : World) (l : list string) : World :=
  mkWorld (clock w) (rng w) (rng_pos w) (net w) (exchanges w) (stdout w) l.

(** [print(...)]. *)
Definition print (l : Line) : M unit :=
  fun w => Done tt (set_stdout w (stdout w ++ [l])).

(** [time.time()]. *)
Definition time_time : M Q := fun w => Done (clock w) w.

(** [time.sleep(secs)]: a negative length is a [ValueError].  A length
    whose nanoseconds do not fit the platform's 64-bit clock (beyond
    about 9.2e9 seconds either way; CPython raises [OverflowError] or
    [OSError] there) is outside this model: the statements that rest on a
    sleep keep the interval within [sleep_floor] and [sleep_limit]. *)
Definition time_sleep (secs : Q) : M unit :=
  fun w =>
    if Py.ltb secs 0
    then Raised (ValueError "sleep length must be non-negative") w
    else Done tt (set_clock w (clock w + secs)).

(** [random.random()]: the next draw, in [[0, 1)] for a well-formed
    generator. *)
Definition random_random : M Q :=
  fun w => Done (rng w (rng_pos w)) (set_rng_pos w (S (rng_pos w))).

(** [random.uniform(a, b)] is [a + (b - a) * random()]. *)
Definition random_uniform (a b : Q) : M Q :=
  u <- random_random ;;
  ret (a + (b - a) * u).

(** [random.randint(a, b)] is [a + randbelow(b - a + 1)], the latter
    taken as [floor(random() * n)]. *)
Definition random_randint (a b : Z) : M Z :=
  u <- random_random ;;
  ret (a + Qfloor (u * inject_Z (b - a + 1)))%Z.

(** [requests.post(url, headers=..., data=...)]: one exchange with the
    network.  The outcomes modelled are the two [requests] itself
    produces, a response or a [RequestException]; an exception from below
    [requests] that it does not wrap is not among them. *)
Definition requests_post (url : string) (headers : list (string * string))
    (data : Json) : M Response :=
  fun w =>
    let '(outcome, took) := net w (length (exchanges w)) in
    let w' :=
      set_clock
        (set_exchanges w (exchanges w ++ [(mkRequest url headers data, outcome)]))
        (clock w + took) in
    match outcome with
    | Responded r => Done r w'
    | Failed e => Raised (RequestExn e) w'
    end.

(** [Response.ok]: the status is not a client or server error. *)
Definition response_ok (r : Response) : bool :=
  negb ((400 <=? status_code r)%Z && (status_code r <? 600)%Z).

(** [response.raise_for_status()]: raises [HTTPError] for 4xx and 5xx. *)
Definition raise_for_status (r : Response) : M unit :=
  if response_ok r then ret tt else raise (RequestExn (HTTPError r)).

(** Truth value of what [send_telemetry] returns ([if response ...]):
    [None] is false, a response is as true as it is [ok]. *)
Definition truthy_response (o : option Response) : bool :=
  match o with
  | None => false
  | Some r => response_ok r
  end.

(* ================================================================== *)
(** * send_telemetry *)

Definition DEFAULT_SERVER : string := "http://52.42.86.26:8081".
Definition DEFAULT_ENDPOINT : string := "/api/v1/{token}/telemetry".

Definition telemetry_url (server token : string) : string :=
  (server ++ "/api/v1/" ++ token ++ "/telemetry")%string.

Definition telemetry_headers : list (string * string) :=
  [("Content-Type", "application/json")]%string.

(** The payload dict as built on lines 44-57; [now] is the value of
    [time.time()]. *)
Definition build_payload (now : Q) (lat lon : Q) (batt acc alt : option Z) : Dict :=
  let payload : Dict :=
    [ ("_type", JStr "location");
      ("lat", JNum lat);
      ("lon", JNum lon);
      ("tst", JInt (Py.int now)) ]%string in
  let payload :=
    match batt with
    | Some b => dict_set payload "batt" (JInt b)
    | None => payload
    end in
  let payload :=
    match acc with
    | Some a => dict_set payload "acc" (JInt a)
    | None => payload
    end in
  let payload :=
    match alt with
    | Some a => dict_set payload "alt" (JInt a)
    | None => payload
    end in
  payload.

Definition send_telemetry (server token : string) (lat lon : Q)
    (batt acc alt : option Z) : M (option Response) :=
  let url := telemetry_url server token in
  now <- time_time ;;
  let payload := build_payload now lat lon batt acc alt in
  let headers := telemetry_headers in
  try_except_RequestException
    (response <- requests_post url headers (json_dumps payload) ;;
     raise_for_status response ;;
     ret (Some response))
    (fun e =>
       print (L_error_sending (str_exception e)) ;;
       ret None).

(* ================================================================== *)
(** * simulate_movement *)

(** The local variables of [simulate_movement] that live across
    iterations. *)
Record SimState : Type := mkSim {
  current_lat : Q;
  current_lon : Q;
  battery : Q;
  update_count : Z
}.

(** [response and response.status_code == 200]. *)
Definition response_and_200 (o : option Response) : bool :=
  truthy_response o &&
  match o with
  | Some r => (status_code r =? 200)%Z
  | None => false
  end.

(** [datetime.now()], kept as the clock reading it formats. *)
Definition datetime_now : M Q := time_time.

(** The body of the [while] loop, lines 97-127. *)
Definition simulate_tick (server token : string) (interval : Q)
    (st : SimState) : M SimState :=
  dlat <- random_uniform (- (1 # 1000)) (1 # 1000) ;;
  let current_lat := current_lat st + dlat in
  dlon <- random_uniform (- (1 # 1000)) (1 # 1000) ;;
  let current_lon := current_lon st + dlon in
  drain <- random_uniform (1 # 10) (1 # 2) ;;
  let battery := Py.max 0 (battery st - drain) in
  accuracy <- random_randint 5 20 ;;
  altitude <- random_randint 50 100 ;;
  response <- send_telemetry server token
                (Py.round current_lat 6)
                (Py.round current_lon 6)
                (Some (Py.int battery))
                (Some accuracy)
                (Some altitude) ;;
  update_count <-
    (if response_and_200 response then
       let update_count := (update_count st + 1)%Z in
       timestamp <- datetime_now ;;
       print (L_update timestamp update_count current_lat current_lon
                       (Py.int battery) accuracy) ;;
       ret update_count
     else
       print (L_failed_update (update_count st + 1)%Z) ;;
       ret (update_count st)) ;;
  time_sleep interval ;;
  ret (mkSim current_lat current_lon battery update_count).

(** The [while] loop of line 96.  [fuel] bounds the number of
    iterations the model follows; running out of it is [Diverge]. *)
Fixpoint simulate_loop (fuel : nat) (server token : string)
    (duration interval : Q) (start_time : Q) (st : SimState) : M SimState :=
  match fuel with
  | O => fun _ => Diverge
  | S fuel' =>
      now <- time_time ;;
      if Py.ltb (now - start_time) duration then
        st' <- simulate_tick server token interval st ;;
        simulate_loop fuel' server token duration interval start_time st'
      else
        ret st
  end.

Definition initial_state (start_lat start_lon : Q) : SimState :=
  mkSim start_lat start_lon 100 0.

Definition simulate_movement (fuel : nat) (server token : string)
    (start_lat start_lon : Q) (duration interval : Q) : M unit :=
  print L_starting ;;
  print (L_initial_position start_lat start_lon) ;;
  print (L_duration_interval duration interval) ;;
  print L_rule ;;
  let st := initial_state start_lat start_lon in
  start_time <- time_time ;;
  st <- simulate_loop fuel server token duration interval start_time st ;;
  print L_rule ;;
  print (L_complete (update_count st)).

(* ================================================================== *)
(** * main *)

(** The flags given on the command line; [None] is a flag left out.
    [cl_help] is [-h] or [--help], which [ArgumentParser] adds by itself. *)
Record CommandLine : Type := mkCommandLine {
  cl_token : option string;
  cl_server : option string;
  cl_lat : option Q;
  cl_lon : option Q;
  cl_batt : option Z;
  cl_acc : option Z;
  cl_alt : option Z;
  cl_simulate : bool;
  cl_duration : option Z;
  cl_interval : option Z;
  cl_help : bool
}.

(** The namespace [parser.parse_args()] returns. *)
Record Namespace : Type := mkNamespace {
  args_token : string;
  args_server : string;
  args_lat : option Q;
  args_lon : option Q;
  args_batt : option Z;
  args_acc : option Z;
  args_alt : option Z;
  args_simulate : bool;
  args_duration : Z;
  args_interval : Z
}.

(** [parser.error(msg)]: the message goes to standard error and the
    process exits with status 2. *)
Definition parser_error {A} (msg : string) : M A :=
  fun w => Raised (SystemExit 2) (set_stderr w (stderr w ++ [msg])).

Definition from_default {A} (o : option A) (d : A) : A :=
  match o with
  | Some a => a
  | None => d
  end.

(** The help action of the parser: the help text goes to standard
    output and the process exits with status 0. *)
Definition parser_help {A} : M A :=
  fun w => Raised (SystemExit 0) (set_stdout w (stdout w ++ [L_help])).

(** [parser.parse_args()] for the parser of lines 134-188: [-h] or
    [--help] prints the help and exits before anything is required;
    otherwise [--token] is required, and [--server], [--duration] and
    [--interval] have defaults. *)
Definition parse_args (cl : CommandLine) : M Namespace :=
  if cl_help cl then parser_help
  else
    match cl_token cl with
    | None => parser_error "the following arguments are required: --token"
    | Some tok =>
        ret (mkNamespace tok
               (from_default (cl_server cl) DEFAULT_SERVER)
               (cl_lat cl) (cl_lon cl)
               (cl_batt cl) (cl_acc cl) (cl_alt cl)
               (cl_simulate cl)
               (from_default (cl_duration cl) 60%Z)
               (from_default (cl_interval cl) 5%Z))
    end.

(** [if o: k(o)] for an optional int. *)
Definition if_truthy (o : option Z) (k : Z -> M unit) : M unit :=
  match o with
  | Some z => if Py.truthy_int o then k z else ret tt
  | None => ret tt
  end.

Definition main (fuel : nat) (cl : CommandLine) : M unit :=
  args <- parse_args cl ;;
  if args_simulate args then
    match args_lat args, args_lon args with
    | Some lat, Some lon =>
        simulate_movement fuel (args_server args) (args_token args) lat lon
          (inject_Z (args_duration args)) (inject_Z (args_interval args))
    | _, _ =>
        parser_error "--simulate requires --lat and --lon for starting position"
    end
  else
    match args_lat args, args_lon args with
    | Some lat, Some lon =>
        print (L_sending_to (args_server args)) ;;
        response <- send_telemetry (args_server args) (args_token args)
                      lat lon (args_batt args) (args_acc args) (args_alt args) ;;
        if response_and_200 response then
          print L_success ;;
          print (L_latitude lat) ;;
          print (L_longitude lon) ;;
          if_truthy (args_batt args) (fun b => print (L_battery b)) ;;
          if_truthy (args_acc args) (fun a => print (L_accuracy a)) ;;
          if_truthy (args_alt args) (fun a => print (L_altitude a))
        else
          print L_failed ;;
          match response with
          | Some r =>
              if truthy_response response then
                print (L_status_code (status_code r)) ;;
                print (L_response (text r))
              else ret tt
          | None => ret tt
          end
    | _, _ =>
        parser_error "--lat and --lon are required (unless using --simulate)"
    end.

(* ================================================================== *)
(** * Concrete worlds for examples *)

Module Examples.

(** A world at clock 0 whose generator always draws [u] and whose
    network always gives [outcome] after [took] seconds. *)
Definition world (u : Q) (outcome : PostOutcome) (took : Q) : World :=
  mkWorld 0 (fun _ => u) 0 (fun _ => (outcome, took)) [] [] [].

(** The reason phrase a server sends with a status code. *)
Definition reason_phrase (code : Z) : string :=
  (if code =? 200 then "OK"
   else if code =? 201 then "Created"
   else if code =? 204 then "No Content"
   else if code =? 304 then "Not Modified"
   else if code =? 404 then "Not Found"
   else if code =? 503 then "Service Unavailable"
   else "")%Z%string.

(** The endpoint of device [T] on the default server. *)
Definition endpoint : string := "http://52.42.86.26:8081/api/v1/T/telemetry".

(** The response of that endpoint with status [code] and body [body]. *)
Definition response (code : Z) (body : string) : Response :=
  mkResponse code (reason_phrase code) endpoint body.

Definition replies (code : Z) (body : string) : PostOutcome :=
  Responded (response code body).

(** A world at clock 0 whose network answers 200 to every other POST,
    starting with the first, and times out on the rest; each POST takes
    [took] seconds. *)
Definition flaky (u : Q) (took : Q) : World :=
  mkWorld 0 (fun _ => u) 0
    (fun n => (if Nat.even n then replies 200 "" else Failed Timeout, took))
    [] [] [].

Definition single (batt acc alt : option Z) : CommandLine :=
  mkCommandLine (Some "T"%string) None (Some (34 # 1)) (Some (- (118 # 1)))
    batt acc alt false None None false.

Definition simulation (duration interval : Z) : CommandLine :=
  mkCommandLine (Some "T"%string) None (Some (34 # 1)) (Some (- (118 # 1)))
    None None None true (Some duration) (Some interval) false.

End Examples.

Definition new_exchanges (w w' : World) : list (Request * PostOutcome) :=
  skipn (length (exchanges w)) (exchanges w').

(* ================================================================== *)
(** * Vocabulary for the statements *)

Unset Implicit Arguments.

Local Open Scope string_scope.
Local Open Scope list_scope.

(** The request a call builds when the clock reads [now]. *)
Definition telemetry_request (server token : string) (now lat lon : Q)
    (batt acc alt : option Z) : Request :=
  mkRequest (telemetry_url server token) telemetry_headers
    (json_dumps (build_payload now lat lon batt acc alt)).

(** The world after the POST: one more exchange, the clock advanced by
    the time the POST took. *)
Definition after_post (w : World) (req : Request) : World :=
  let '(outcome, took) := net w (length (exchanges w)) in
  set_clock (set_exchanges w (exchanges w ++ [(req, outcome)])) (clock w + took).

(** What [send_telemetry] returns, and what it prints, as a function of
    the POST's outcome. *)
Definition sender_result (o : PostOutcome) : option Response :=
  match o with
  | Responded r => if response_ok r then Some r else None
  | Failed _ => None
  end.

Definition sender_diagnostic (o : PostOutcome) : list Line :=
  match o with
  | Responded r =>
      if response_ok r then []
      else [L_error_sending (str_exception (HTTPError r))]
  | Failed e => [L_error_sending (str_exception e)]
  end.

(** The [k]-th draw from now on, pushed through [random.uniform] and
    [random.randint]. *)
Definition drawn_uniform (a b : Q) (w : World) (k : nat) : Q :=
  a + (b - a) * rng w (k + rng_pos w)%nat.

Definition drawn_randint (a b : Z) (w : World) (k : nat) : Z :=
  (a + Qfloor (rng w (k + rng_pos w)%nat * inject_Z (b - a + 1)))%Z.

Definition tick_lat (st : SimState) (w : World) : Q :=
  current_lat st + drawn_uniform (- (1 # 1000)) (1 # 1000) w 0.

Definition tick_lon (st : SimState) (w : World) : Q :=
  current_lon st + drawn_uniform (- (1 # 1000)) (1 # 1000) w 1.

Definition tick_drain (w : World) : Q := drawn_uniform (1 # 10) (1 # 2) w 2.

Definition tick_battery (st : SimState) (w : World) : Q :=
  Py.max 0 (battery st - tick_drain w).

Definition tick_accuracy (w : World) : Z := drawn_randint 5 20 w 3.

Definition tick_altitude (w : World) : Z := drawn_randint 50 100 w 4.

Definition tick_request (server token : string) (st : SimState) (w : World) : Request :=
  telemetry_request server token (clock w)
    (Py.round (tick_lat st w) 6) (Py.round (tick_lon st w) 6)
    (Some (Py.int (tick_battery st w)))
    (Some (tick_accuracy w)) (Some (tick_altitude w)).

(** The outcome of the next POST, and the seconds it takes. *)
Definition next_outcome (w : World) : PostOutcome :=
  fst (net w (length (exchanges w))).

Definition next_took (w : World) : Q :=
  snd (net w (length (exchanges w))).

Definition tick_count (st : SimState) (w : World) : Z :=
  if response_and_200 (sender_result (next_outcome w))
  then (update_count st + 1)%Z
  else update_count st.

Definition tick_state (st : SimState) (w : World) : SimState :=
  mkSim (tick_lat st w) (tick_lon st w) (tick_battery st w) (tick_count st w).

Definition tick_report (st : SimState) (w : World) : Line :=
  if response_and_200 (sender_result (next_outcome w))
  then L_update (clock w + next_took w) (update_count st + 1)
         (tick_lat st w) (tick_lon st w)
         (Py.int (tick_battery st w)) (tick_accuracy w)
  else L_failed_update (update_count st + 1).

(** A well-formed generator draws in [[0, 1)]; a well-formed network
    takes a non-negative time. *)
Definition rng_ok (w : World) : Prop :=
  forall n, 0 <= rng w n /\ rng w n < 1.

Definition net_ok (w : World) : Prop :=
  forall n, 0 <= snd (net w n).

(** The line an optional flag contributes to the success block. *)
Definition flag_line (o : option Z) (line : Z -> Line) : list Line :=
  match o with
  | Some z => if Py.truthy_int o then [line z] else []
  | None => []
  end.

(** What [main] prints after the call of [send_telemetry] returned
    [result]. *)
Definition single_report (lat lon : Q) (batt acc alt : option Z)
    (result : option Response) : list Line :=
  if response_and_200 result then
    [L_success; L_latitude lat; L_longitude lon]
      ++ flag_line batt L_battery
      ++ flag_line acc L_accuracy
      ++ flag_line alt L_altitude
  else
    L_failed ::
    match result with
    | Some r => [L_status_code (status_code r); L_response (text r)]
    | None => []
    end.

(** A command line of single-send mode with both coordinates (and no
    request for help, which would end the program in the parser). *)
Definition single_send (cl : CommandLine) (tok : string) (lat lon : Q) : Prop :=
  cl_help cl = false /\
  cl_token cl = Some tok /\ cl_simulate cl = false /\
  cl_lat cl = Some lat /\ cl_lon cl = Some lon.

(** The outcomes for which the POST or [raise_for_status] raises: a
    transport failure, or a response with a 4xx or 5xx status. *)
Definition send_fails (o : PostOutcome) : Prop :=
  match o with
  | Failed _ => True
  | Responded r => (400 <= status_code r < 600)%Z
  end.

(** The states a simulation can be in: the one it starts from, and any
    state one completed iteration away from such a state. *)
Inductive run_from (server token : string) (interval : Q)
    (st0 : SimState) (w0 : World) : SimState -> World -> Prop :=
| run_start : run_from server token interval st0 w0 st0 w0
| run_tick st w st' w' :
    run_from server token interval st0 w0 st w ->
    simulate_tick server token interval st w = Done st' w' ->
    run_from server token interval st0 w0 st' w'.

(** A request with all three optional fields, each in its range. *)
Definition bounded_fields (req : Request) : Prop :=
  exists batt acc alt : Z,
    json_member (req_data req) "batt" = Some (JInt batt) /\
    (0 <= batt <= 100)%Z /\
    json_member (req_data req) "acc" = Some (JInt acc) /\
    (5 <= acc <= 20)%Z /\
    json_member (req_data req) "alt" = Some (JInt alt) /\
    (50 <= alt <= 100)%Z.

Definition printed (w : World) (l : Line) : World :=
  set_stdout w (stdout w ++ [l]).

(** The world when the loop is entered: the four header lines are out. *)
Definition header_world (start_lat start_lon duration interval : Q) (w : World) : World :=
  printed (printed (printed (printed w L_starting)
                      (L_initial_position start_lat start_lon))
             (L_duration_interval duration interval))
    L_rule.

(** A send the caller counts: a returned response with status 200. *)
Definition confirmed (x : Request * PostOutcome) : bool :=
  response_and_200 (sender_result (snd x)).

(** A send for which [send_telemetry] returned the response. *)
Definition returned (x : Request * PostOutcome) : bool :=
  match sender_result (snd x) with
  | Some _ => true
  | None => false
  end.

Definition count {A} (f : A -> bool) (l : list A) : nat := length (filter f l).

(** A whole number in decimal, as an f-string writes it. *)
Definition show_Z (z : Z) : string := NilZero.string_of_int (Z.to_int z).

(** The text of an [HTTPError], as [raise_for_status] composes it.  The
    text of the other exceptions is the library's own and is not
    modelled. *)
Definition render_error (t : ErrorText) : option string :=
  match t with
  | Text_http_error code reason_phrase response_url =>
      Some (show_Z code
              ++ (if (code <? 500)%Z then " Client Error: " else " Server Error: ")
              ++ reason_phrase ++ " for url: " ++ response_url)%string
  | _ => None
  end.

(** The text of the lines of single-send mode that hold no float. *)
Definition render_line (l : Line) : option string :=
  match l with
  | L_sending_to server =>
      Some ("Sending location data to " ++ server ++ "...")%string
  | L_error_sending t =>
      match render_error t with
      | Some message => Some ("Error sending telemetry: " ++ message)%string
      | None => None
      end
  | L_failed => Some "✗ Failed to send location data"
  | L_status_code code => Some ("  Status code: " ++ show_Z code)%string
  | L_response body => Some ("  Response: " ++ body)%string
  | _ => None
  end.

(** [needle] occurs in the text of the line. *)
Definition line_mentions (needle : string) (l : Line) : bool :=
  match render_line l with
  | Some s => match index 0 needle s with Some _ => true | None => false end
  | None => false
  end.

(** The lengths [time.sleep] surely takes or surely refuses as the model
    says: up to [sleep_limit] seconds it sleeps, and from [sleep_floor]
    up to 0 it raises its [ValueError]. *)
Definition sleep_limit : Q := 1000000000.

Definition sleep_floor : Q := - (9223372036).

(** The world a computation leaves behind, whether it returned or
    raised. *)
Definition final_world {A} (r : Res A) : option World :=
  match r with
  | Done _ w => Some w
  | Raised _ w => Some w
  | Diverge => None
  end.

(** [sent] is [x] rounded to six decimals as Python rounds: a whole
    number [k] of millionths, nearest to [x], the even one of the two
    when [x] lies half-way. *)
Definition rounded_to_millionths (x sent : Q) : Prop :=
  exists k : Z,
    sent == inject_Z k * (1 # 1000000) /\
    - (1 # 2) <= inject_Z k - x * 1000000 /\
    inject_Z k - x * 1000000 <= 1 # 2 /\
    (Qabs (inject_Z k - x * 1000000) == 1 # 2 -> Z.even k = true).

(** A whole number of millionths. *)
Definition whole_millionths (q : Q) : Prop :=
  exists k : Z, q == inject_Z k * (1 # 1000000).

(** The key an optional argument adds to the payload. *)
Definition key_if {A} (o : option A) (k : string) : list string :=
  match o with
  | Some _ => [k]
  | None => []
  end.

(** The [tst] member of a request's body. *)
Definition request_tst (req : Request) : option Z :=
  match json_member (req_data req) "tst" with
  | Some (JInt t) => Some t
  | _ => None
  end.

(** The [batt] member of a request's body. *)
Definition request_batt (req : Request) : option Z :=
  match json_member (req_data req) "batt" with
  | Some (JInt b) => Some b
  | _ => None
  end.

(** The [lat] and [lon] members of a request's body. *)
Definition request_lat (req : Request) : option Q :=
  match json_member (req_data req) "lat" with
  | Some (JNum q) => Some q
  | _ => None
  end.

Definition request_lon (req : Request) : option Q :=
  match json_member (req_data req) "lon" with
  | Some (JNum q) => Some q
  | _ => None
  end.

(** A request as the simulation sends them: the three optional fields
    in their ranges, latitude and longitude whole numbers of millionths. *)
Definition simulated_request (req : Request) : Prop :=
  bounded_fields req /\
  exists la lo,
    request_lat req = Some la /\ request_lon req = Some lo /\
    whole_millionths la /\ whole_millionths lo.

(** The numbers in the update lines, and in the failure lines, of an
    output. *)
Definition update_numbers (out : list Line) : list Z :=
  flat_map (fun l => match l with
                     | L_update _ n _ _ _ _ => [n]
                     | _ => []
                     end) out.

Definition failed_numbers (out : list Line) : list Z :=
  flat_map (fun l => match l with
                     | L_failed_update n => [n]
                     | _ => []
                     end) out.

(** The four lines [simulate_movement] prints before its loop. *)
Definition header_lines (start_lat start_lon duration interval : Q) : list Line :=
  [L_starting; L_initial_position start_lat start_lon;
   L_duration_interval duration interval; L_rule].

(** Two worlds that differ at most in what the POSTs come back with, in
    what was exchanged so far and in what is on the console: same clock,
    same generator, as many exchanges, and every POST takes as long. *)
Definition same_but_outcomes (w1 w2 : World) : Prop :=
  clock w1 = clock w2 /\
  rng w1 = rng w2 /\
  rng_pos w1 = rng_pos w2 /\
  length (exchanges w1) = length (exchanges w2) /\
  forall n, snd (net w1 n) = snd (net w2 n).

(** Two simulation states with the same position and battery. *)
Definition same_position (st1 st2 : SimState) : Prop :=
  current_lat st1 = current_lat st2 /\
  current_lon st1 = current_lon st2 /\
  battery st1 = battery st2.

(** A command line with other values for the three optional flags. *)
Definition with_optional_flags (cl : CommandLine) (batt acc alt : option Z) : CommandLine :=
  mkCommandLine (cl_token cl) (cl_server cl) (cl_lat cl) (cl_lon cl)
    batt acc alt (cl_simulate cl) (cl_duration cl) (cl_interval cl)
    (cl_help cl).

(* ================================================================== *)
(** * Arithmetic helpers *)

Lemma ltb_true (x y : Q) : Py.ltb x y = true <-> x < y.
Proof.
  unfold Py.ltb. rewrite negb_true_iff.
  split; intro H.
  - apply Qnot_le_lt. intro L. apply Qle_bool_iff in L. congruence.
  - destruct (Qle_bool y x) eqn:E; [|reflexivity].
    apply Qle_bool_iff in E. exfalso. apply (Qlt_not_le _ _ H E).
Qed.

Lemma ltb_false (x y : Q) : Py.ltb x y = false <-> y <= x.
Proof.
  unfold Py.ltb. rewrite negb_false_iff. apply Qle_bool_iff.
Qed.

Lemma max_zero_bounds (b d : Q) :
  0 <= b -> 0 <= d -> 0 <= Py.max 0 (b - d) /\ Py.max 0 (b - d) <= b.
Proof.
  intros Hb Hd. unfold Py.max.
  destruct (Py.ltb 0 (b - d)) eqn:E.
  - apply ltb_true in E. split; lra.
  - split; lra.
Qed.

(** [int] of a non-negative float is its floor. *)
Lemma int_nonneg (x : Q) : 0 <= x -> Py.int x = Qfloor x.
Proof.
  intros H. unfold Py.int, Qfloor. destruct x as [n d]. simpl.
  unfold Qle in H. simpl in H.
  apply Z.quot_div_nonneg; lia.
Qed.

Lemma int_bounds (x : Q) (lo hi : Z) :
  0 <= x -> inject_Z lo <= x -> x <= inject_Z hi ->
  (lo <= Py.int x <= hi)%Z.
Proof.
  intros H0 Hlo Hhi. rewrite (int_nonneg x H0). split.
  - rewrite <- (Qfloor_Z lo). apply Qfloor_resp_le. exact Hlo.
  - rewrite <- (Qfloor_Z hi). apply Qfloor_resp_le. exact Hhi.
Qed.

Lemma uniform_bounds (a b u : Q) :
  a <= b -> 0 <= u -> u < 1 ->
  a <= a + (b - a) * u /\ a + (b - a) * u <= b.
Proof.
  intros Hab H0 H1.
  assert (0 <= (b - a) * u) by (apply Qmult_le_0_compat; lra).
  assert (0 <= (b - a) * (1 - u)) by (apply Qmult_le_0_compat; lra).
  split; lra.
Qed.

Lemma randbelow_bounds (u : Q) (n : Z) :
  (0 < n)%Z -> 0 <= u -> u < 1 ->
  (0 <= Qfloor (u * inject_Z n) < n)%Z.
Proof.
  intros Hn H0 H1.
  assert (Hn' : 0 < inject_Z n)
    by (change (inject_Z 0 < inject_Z n); rewrite <- Zlt_Qlt; exact Hn).
  assert (Hlo : 0 <= u * inject_Z n) by (apply Qmult_le_0_compat; lra).
  assert (Hhi : u * inject_Z n < inject_Z n).
  { assert (0 < (1 - u) * inject_Z n) by (apply Qmult_lt_0_compat; lra). lra. }
  split.
  - rewrite <- (Qfloor_Z 0). apply Qfloor_resp_le. exact Hlo.
  - rewrite Zlt_Qlt.
    eapply Qle_lt_trans; [apply Qfloor_le | exact Hhi].
Qed.

Lemma randint_bounds (a b : Z) (u : Q) :
  (a <= b)%Z -> 0 <= u -> u < 1 ->
  (a <= a + Qfloor (u * inject_Z (b - a + 1)) <= b)%Z.
Proof.
  intros Hab H0 H1.
  pose proof (randbelow_bounds u (b - a + 1)%Z ltac:(lia) H0 H1). lia.
Qed.

(* ================================================================== *)
(** * What one call of send_telemetry does *)

Lemma send_telemetry_spec server token lat lon batt acc alt w :
  let req := telemetry_request server token (clock w) lat lon batt acc alt in
  let w1 := after_post w req in
  send_telemetry server token lat lon batt acc alt w =
    match fst (net w (length (exchanges w))) with
    | Responded r =>
        if response_ok r then Done (Some r) w1
        else Done None (set_stdout w1
                          (stdout w1 ++ [L_error_sending (str_exception (HTTPError r))]))
    | Failed e =>
        Done None (set_stdout w1 (stdout w1 ++ [L_error_sending (str_exception e)]))
    end.
Proof.
  unfold send_telemetry, try_except_RequestException, bind, time_time,
    requests_post, raise_for_status, after_post, telemetry_request, ret, raise, print.
  destruct (net w (length (exchanges w))) as [[r|e] took]; simpl.
  - destruct (response_ok r); reflexivity.
  - reflexivity.
Qed.

Lemma after_post_exchanges w req :
  exchanges (after_post w req) =
  exchanges w ++ [(req, fst (net w (length (exchanges w))))].
Proof.
  unfold after_post. destruct (net w (length (exchanges w))); reflexivity.
Qed.

Lemma after_post_clock w req :
  clock (after_post w req) = clock w + snd (net w (length (exchanges w))).
Proof.
  unfold after_post. destruct (net w (length (exchanges w))); reflexivity.
Qed.

Lemma after_post_frame w req :
  rng (after_post w req) = rng w /\
  rng_pos (after_post w req) = rng_pos w /\
  net (after_post w req) = net w /\
  stdout (after_post w req) = stdout w /\
  stderr (after_post w req) = stderr w.
Proof.
  unfold after_post. destruct (net w (length (exchanges w))); repeat split.
Qed.

Lemma send_telemetry_done server token lat lon batt acc alt w :
  let req := telemetry_request server token (clock w) lat lon batt acc alt in
  let o := fst (net w (length (exchanges w))) in
  let w1 := after_post w req in
  send_telemetry server token lat lon batt acc alt w =
    Done (sender_result o) (set_stdout w1 (stdout w1 ++ sender_diagnostic o)).
Proof.
  cbv zeta. rewrite send_telemetry_spec. cbv zeta.
  unfold sender_result, sender_diagnostic.
  destruct (fst (net w (length (exchanges w)))) as [r|e].
  - destruct (response_ok r); [|reflexivity].
    rewrite app_nil_r. destruct (after_post _ _); reflexivity.
  - reflexivity.
Qed.

(* ================================================================== *)
(** * What one iteration of the simulation loop does *)

Lemma simulate_tick_done server token interval st w :
  Py.ltb interval 0 = false ->
  exists w',
    simulate_tick server token interval st w = Done (tick_state st w) w' /\
    exchanges w' = exchanges w ++ [(tick_request server token st w, next_outcome w)] /\
    clock w' = clock w + next_took w + interval /\
    rng w' = rng w /\
    rng_pos w' = (5 + rng_pos w)%nat /\
    net w' = net w /\
    stdout w' = stdout w ++ sender_diagnostic (next_outcome w) ++ [tick_report st w] /\
    stderr w' = stderr w.
Proof.
  intros Hint.
  unfold simulate_tick, random_uniform, random_randint, random_random, bind, ret.
  rewrite send_telemetry_done. cbv zeta.
  unfold tick_state, tick_count, tick_report, next_outcome, next_took,
    tick_request, after_post.
  cbn [clock exchanges set_rng_pos rng rng_pos net stdout stderr].
  destruct (net w (length (exchanges w))) as [o took]. cbn [fst snd].
  unfold bind, datetime_now, time_time, print, time_sleep, ret.
  destruct (response_and_200 (sender_result o));
    cbn [set_stdout set_clock set_exchanges clock exchanges rng rng_pos net stdout stderr];
    rewrite Hint; eexists; (split; [reflexivity|]);
    cbn [set_stdout set_clock set_exchanges clock exchanges rng rng_pos net stdout stderr];
    rewrite <- ?app_assoc; repeat split.
Qed.

(* ================================================================== *)
(** * The simulation loop *)

Lemma simulate_loop_unfold fuel server token duration interval start st w :
  simulate_loop (S fuel) server token duration interval start st w =
    if Py.ltb (clock w - start) duration then
      match simulate_tick server token interval st w with
      | Done st1 w1 => simulate_loop fuel server token duration interval start st1 w1
      | Raised e w1 => Raised e w1
      | Diverge => Diverge
      end
    else Done st w.
Proof.
  cbn [simulate_loop]. unfold bind at 1, time_time.
  destruct (Py.ltb (clock w - start) duration); reflexivity.
Qed.

(** The rule of the [while] loop: a property kept by every iteration
    that the test lets through holds when the loop is left, and the test
    fails there. *)
Lemma simulate_loop_rule (P : SimState -> World -> Prop)
    server token duration interval start :
  (forall st w st1 w1,
      P st w ->
      Py.ltb (clock w - start) duration = true ->
      simulate_tick server token interval st w = Done st1 w1 ->
      P st1 w1) ->
  forall fuel st w st' w',
    P st w ->
    simulate_loop fuel server token duration interval start st w = Done st' w' ->
    P st' w' /\ Py.ltb (clock w' - start) duration = false.
Proof.
  intros Hstep. induction fuel as [|fuel IH]; intros st w st' w' HP Hrun.
  - discriminate.
  - rewrite simulate_loop_unfold in Hrun.
    destruct (Py.ltb (clock w - start) duration) eqn:Htest.
    + destruct (simulate_tick server token interval st w) as [st1 w1| |] eqn:Htick;
        try discriminate.
      apply (IH st1 w1); [|exact Hrun].
      eapply Hstep; eauto.
    + inversion Hrun; subst. split; assumption.
Qed.

Lemma of_nat_succ_Q (n : nat) :
  inject_Z (Z.of_nat (S n)) == inject_Z (Z.of_nat n) + 1.
Proof.
  rewrite Nat2Z.inj_succ. unfold Z.succ. rewrite inject_Z_plus. reflexivity.
Qed.

(** With a positive interval the loop is left after finitely many
    iterations: [n] of them are enough once [n] intervals cover what is
    left of the duration. *)
Lemma simulate_loop_terminates server token duration interval start :
  0 < interval ->
  forall n st w,
    net_ok w ->
    duration - (clock w - start) <= interval * inject_Z (Z.of_nat n) ->
    exists st' w',
      simulate_loop (S n) server token duration interval start st w = Done st' w'.
Proof.
  intros Hpos. induction n as [|n IH]; intros st w Hnet Hleft.
  - rewrite simulate_loop_unfold.
    destruct (Py.ltb (clock w - start) duration) eqn:Htest.
    + apply ltb_true in Htest.
      change (inject_Z (Z.of_nat 0)) with 0 in Hleft. lra.
    + eauto.
  - rewrite simulate_loop_unfold.
    destruct (Py.ltb (clock w - start) duration) eqn:Htest; [|eauto].
    assert (Hint : Py.ltb interval 0 = false) by (apply ltb_false; lra).
    destruct (simulate_tick_done server token interval st w Hint)
      as (w1 & Htick & _ & Hclock & _ & _ & Hnet1 & _).
    rewrite Htick. apply IH.
    + unfold net_ok. rewrite Hnet1. exact Hnet.
    + rewrite Hclock. rewrite of_nat_succ_Q in Hleft.
      pose proof (Hnet (length (exchanges w))) as Htook.
      unfold next_took. lra.
Qed.

(** Some number of intervals covers any span. *)
Lemma intervals_cover (interval span : Q) :
  0 < interval ->
  exists n : nat, span <= interval * inject_Z (Z.of_nat n).
Proof.
  intros Hpos.
  exists (Z.to_nat (Qceiling (span / interval))).
  assert (Hc : span / interval <= inject_Z (Z.of_nat (Z.to_nat (Qceiling (span / interval))))).
  { eapply Qle_trans; [apply Qle_ceiling|].
    rewrite <- Zle_Qle. lia. }
  assert (Hs : span == interval * (span / interval)) by (field; lra).
  rewrite Hs at 1.
  apply Qmult_le_l; assumption.
Qed.

(* ================================================================== *)
(** * The telemetry payload *)


Ltac decide_member :=
  cbn; repeat split; intros;
  try reflexivity; try discriminate; try congruence;
  repeat match goal with
         | H : _ \/ _ |- _ => destruct H
         | H : False |- _ => destruct H
         | H : @eq string _ _ |- _ => discriminate H
         end;
  try tauto; try congruence.

Lemma build_payload_members now lat lon batt acc alt :
  let body := json_dumps (build_payload now lat lon batt acc alt) in
  json_member body "_type" = Some (JStr "location") /\
  json_member body "lat" = Some (JNum lat) /\
  json_member body "lon" = Some (JNum lon) /\
  json_member body "tst" = Some (JInt (Py.int now)) /\
  json_member body "batt" = option_map JInt batt /\
  json_member body "acc" = option_map JInt acc /\
  json_member body "alt" = option_map JInt alt.
Proof.
  destruct batt, acc, alt; cbn; repeat split.
Qed.

Lemma build_payload_keys now lat lon batt acc alt :
  let body := json_dumps (build_payload now lat lon batt acc alt) in
  json_has body "_type" /\ json_has body "lat" /\
  json_has body "lon" /\ json_has body "tst" /\
  (json_has body "batt" <-> batt <> None) /\
  (json_has body "acc" <-> acc <> None) /\
  (json_has body "alt" <-> alt <> None).
Proof.
  unfold json_has. destruct batt, acc, alt; decide_member.
Qed.

(** C1.  Whatever optional arguments are given, the body that
    [send_telemetry] posts is the serialized payload, which has the members
    [_type] (the constant tag [location]), [lat], [lon] and [tst], and has
    [batt], [acc], [alt] exactly when the argument was given: a member left
    out has no entry at all, neither null nor zero. *)
Theorem send_telemetry_payload_fields :
  forall server token lat lon batt acc alt w,
  exists result w' req,
    send_telemetry server token lat lon batt acc alt w = Done result w' /\
    exchanges w' = exchanges w ++ [(req, next_outcome w)] /\
    let body := req_data req in
    body = json_dumps (build_payload (clock w) lat lon batt acc alt) /\
    (json_has body "_type" /\ json_has body "lat" /\
     json_has body "lon" /\ json_has body "tst") /\
    json_member body "_type" = Some (JStr "location") /\
    json_member body "lat" = Some (JNum lat) /\
    json_member body "lon" = Some (JNum lon) /\
    json_member body "tst" = Some (JInt (Py.int (clock w))) /\
    (json_has body "batt" <-> batt <> None) /\
    (json_has body "acc" <-> acc <> None) /\
    (json_has body "alt" <-> alt <> None) /\
    json_member body "batt" = option_map JInt batt /\
    json_member body "acc" = option_map JInt acc /\
    json_member body "alt" = option_map JInt alt.
Proof.
  intros. rewrite send_telemetry_done. cbv zeta.
  eexists _, _, (telemetry_request server token (clock w) lat lon batt acc alt).
  split; [reflexivity|].
  split; [cbn [exchanges set_stdout]; apply after_post_exchanges|].
  cbn [req_data telemetry_request].
  pose proof (build_payload_members (clock w) lat lon batt acc alt) as Hm.
  pose proof (build_payload_keys (clock w) lat lon batt acc alt) as Hk.
  cbv zeta in Hm, Hk. tauto.
Qed.

(* ================================================================== *)
(** * Single-send mode *)

Lemma if_truthy_print (o : option Z) (line : Z -> Line) (w : World) :
  if_truthy o (fun z => print (line z)) w =
  Done tt (set_stdout w (stdout w ++ flag_line o line)).
Proof.
  unfold if_truthy, flag_line, print, ret.
  destruct o as [z|]; [destruct (Py.truthy_int (Some z))|];
    try reflexivity; rewrite app_nil_r; destruct w; reflexivity.
Qed.

Lemma sender_result_ok (o : PostOutcome) (r : Response) :
  sender_result o = Some r -> o = Responded r /\ response_ok r = true.
Proof.
  unfold sender_result. destruct o as [r'|e]; [|discriminate].
  destruct (response_ok r') eqn:E; [|discriminate].
  intros H; inversion H; subst. auto.
Qed.

Lemma bind_print {B} (l : Line) (k : unit -> M B) (w : World) :
  bind (print l) k w = k tt (set_stdout w (stdout w ++ [l])).
Proof. reflexivity. Qed.

Lemma bind_if_truthy {B} (o : option Z) (line : Z -> Line) (k : unit -> M B) w :
  bind (if_truthy o (fun z => print (line z))) k w =
  k tt (set_stdout w (stdout w ++ flag_line o line)).
Proof. unfold bind at 1. rewrite if_truthy_print. reflexivity. Qed.

Ltac run_prints :=
  repeat first [ rewrite bind_print; cbv beta
               | rewrite bind_if_truthy; cbv beta
               | rewrite if_truthy_print ].

Ltac world_fields :=
  cbn [clock exchanges net stdout stderr rng rng_pos
       set_stdout set_clock set_exchanges set_rng_pos set_stderr].

Lemma main_single_done fuel cl tok lat lon w :
  single_send cl tok lat lon ->
  let server := from_default (cl_server cl) DEFAULT_SERVER in
  let req := telemetry_request server tok (clock w) lat lon
               (cl_batt cl) (cl_acc cl) (cl_alt cl) in
  exists w',
    main fuel cl w = Done tt w' /\
    exchanges w' = exchanges w ++ [(req, next_outcome w)] /\
    stdout w' =
      stdout w ++ [L_sending_to server] ++ sender_diagnostic (next_outcome w)
        ++ single_report lat lon (cl_batt cl) (cl_acc cl) (cl_alt cl)
             (sender_result (next_outcome w)) /\
    stderr w' = stderr w.
Proof.
  intros (Hhelp & Htok & Hsim & Hlat & Hlon). cbv zeta.
  unfold main, parse_args. rewrite Hhelp, Htok.
  unfold bind at 1, ret at 1.
  cbn [args_simulate args_lat args_lon args_server args_token args_batt
       args_acc args_alt].
  rewrite Hsim, Hlat, Hlon.
  rewrite bind_print. cbv beta. unfold bind at 1.
  rewrite send_telemetry_done. cbv zeta.
  unfold single_report, next_outcome.
  set (server := from_default (cl_server cl) DEFAULT_SERVER).
  set (w0 := set_stdout w (stdout w ++ [L_sending_to server])).
  change (exchanges w0) with (exchanges w).
  change (net w0) with (net w).
  change (clock w0) with (clock w).
  set (o := fst (net w (length (exchanges w)))).
  set (req := telemetry_request _ _ _ _ _ _ _ _).
  pose proof (after_post_exchanges w0 req) as Hex.
  destruct (after_post_frame w0 req) as (_ & _ & _ & Hout & Herr).
  change (exchanges w0) with (exchanges w) in Hex.
  change (net w0) with (net w) in Hex. fold o in Hex.
  change (stdout w0) with (stdout w ++ [L_sending_to server]) in Hout.
  change (stderr w0) with (stderr w) in Herr.
  set (w1 := after_post w0 req) in *.
  destruct (response_and_200 (sender_result o)) eqn:E.
  - run_prints.
    eexists; split; [reflexivity|]. world_fields.
    rewrite Hout, Hex, Herr. rewrite <- !app_assoc. auto.
  - rewrite bind_print. cbv beta.
    destruct (sender_result o) as [r|] eqn:Er.
    + apply sender_result_ok in Er. destruct Er as [_ Hok].
      unfold truthy_response. rewrite Hok. run_prints. unfold print.
      eexists; split; [reflexivity|]. world_fields.
      rewrite Hout, Hex, Herr. rewrite <- !app_assoc. auto.
    + unfold ret. eexists; split; [reflexivity|]. world_fields.
      rewrite Hout, Hex, Herr. rewrite <- !app_assoc. auto.
Qed.

Lemma in_flag_line (x : Line) (o : option Z) (line : Z -> Line) :
  In x (flag_line o line) -> exists z, o = Some z /\ z <> 0%Z /\ x = line z.
Proof.
  unfold flag_line, Py.truthy_int. destruct o as [z|]; [|contradiction].
  destruct (Z.eqb_spec z 0); cbn; [contradiction|].
  intros [H|[]]. exists z. auto.
Qed.

Lemma single_report_success lat lon batt acc alt result :
  In L_success (single_report lat lon batt acc alt result) <->
  response_and_200 result = true.
Proof.
  unfold single_report. destruct (response_and_200 result).
  - split; [reflexivity|]. intros _. left. reflexivity.
  - split; [|discriminate]. intros [H|H]; [discriminate|].
    destruct result; cbn in H; intuition discriminate.
Qed.

Lemma single_report_failed lat lon batt acc alt result :
  In L_failed (single_report lat lon batt acc alt result) <->
  response_and_200 result = false.
Proof.
  unfold single_report. destruct (response_and_200 result).
  - split; [|discriminate]. intros [H|[H|[H|H]]]; try discriminate.
    cbn [app] in H.
    apply in_app_or in H; destruct H as [H|H];
      [|apply in_app_or in H; destruct H as [H|H]];
      apply in_flag_line in H; destruct H as (z & _ & _ & H); discriminate.
  - split; [reflexivity|]. intros _. left. reflexivity.
Qed.

Lemma response_ok_below_400 (r : Response) :
  (status_code r < 400)%Z -> response_ok r = true.
Proof.
  intros H. unfold response_ok.
  destruct (Z.leb_spec 400 (status_code r)); [lia|reflexivity].
Qed.

Lemma response_ok_error (r : Response) :
  (400 <= status_code r < 600)%Z -> response_ok r = false.
Proof.
  intros [H1 H2]. unfold response_ok.
  destruct (Z.leb_spec 400 (status_code r)); [|lia].
  destruct (Z.ltb_spec (status_code r) 600); [reflexivity|lia].
Qed.

Lemma response_and_200_iff (o : PostOutcome) :
  response_and_200 (sender_result o) = true <->
  exists r, o = Responded r /\ status_code r = 200%Z.
Proof.
  unfold response_and_200, sender_result, truthy_response. split.
  - destruct o as [r|e]; [|discriminate].
    destruct (response_ok r) eqn:E; [|discriminate].
    rewrite E. cbn [andb]. intros H. apply Z.eqb_eq in H. eauto.
  - intros (r & -> & H).
    rewrite response_ok_below_400 by lia.
    rewrite response_ok_below_400 by lia. cbn [andb].
    apply Z.eqb_eq. exact H.
Qed.

(* ================================================================== *)
(** * The sender and its callers on HTTP statuses *)

(** C2, as the code has it.  For every response with a 2xx status
    [send_telemetry] returns that response and prints nothing, whatever
    the body is.  Its callers count the send as successful exactly when
    the status is 200: [main] prints the success block for 200 and the
    failure block for any other 2xx, and an iteration of the simulation
    adds one to [update_count] for 200 and leaves it alone otherwise. *)
Theorem only_status_200_counts_as_success :
  forall (r : Response) (w : World),
    next_outcome w = Responded r ->
    (200 <= status_code r < 300)%Z ->
    (forall server token lat lon batt acc alt,
        exists w',
          send_telemetry server token lat lon batt acc alt w = Done (Some r) w' /\
          stdout w' = stdout w) /\
    (forall fuel cl tok lat lon,
        single_send cl tok lat lon ->
        exists w' printed,
          main fuel cl w = Done tt w' /\
          stdout w' = stdout w ++ printed /\
          (In L_success printed <-> status_code r = 200%Z) /\
          (In L_failed printed <-> status_code r <> 200%Z)) /\
    (forall server token interval st,
        0 <= interval ->
        exists st' w',
          simulate_tick server token interval st w = Done st' w' /\
          update_count st' =
            if (status_code r =? 200)%Z
            then (update_count st + 1)%Z
            else update_count st).
Proof.
  intros r w Hout Hst.
  assert (Hok : response_ok r = true) by (apply response_ok_below_400; lia).
  assert (Hres : sender_result (next_outcome w) = Some r)
    by (rewrite Hout; cbn; rewrite Hok; reflexivity).
  assert (Hdiag : sender_diagnostic (next_outcome w) = [])
    by (rewrite Hout; cbn; rewrite Hok; reflexivity).
  assert (H200 : response_and_200 (Some r) = (status_code r =? 200)%Z)
    by (unfold response_and_200, truthy_response; rewrite Hok; reflexivity).
  split; [|split].
  - intros. rewrite send_telemetry_done. cbv zeta.
    fold (next_outcome w). rewrite Hres, Hdiag.
    eexists; split; [reflexivity|].
    world_fields. rewrite app_nil_r. apply after_post_frame.
  - intros fuel cl tok lat lon Hcl.
    destruct (main_single_done fuel cl tok lat lon w Hcl)
      as (w' & Hrun & _ & Hprinted & _).
    rewrite Hres, Hdiag in Hprinted.
    eexists w', _. split; [exact Hrun|]. split; [exact Hprinted|].
    cbn [app]. split.
    + split.
      * intros [H|H]; [discriminate|].
        apply single_report_success in H. rewrite H200 in H.
        apply Z.eqb_eq. exact H.
      * intros H. right. apply single_report_success.
        rewrite H200. apply Z.eqb_eq. exact H.
    + split.
      * intros [H|H]; [discriminate|].
        apply single_report_failed in H. rewrite H200 in H.
        apply Z.eqb_neq. exact H.
      * intros H. right. apply single_report_failed.
        rewrite H200. apply Z.eqb_neq. exact H.
  - intros server token interval st Hint.
    assert (Hlt : Py.ltb interval 0 = false) by (apply ltb_false; exact Hint).
    destruct (simulate_tick_done server token interval st w Hlt) as (w' & Hrun & _).
    exists (tick_state st w), w'. split; [exact Hrun|].
    cbn [update_count tick_state]. unfold tick_count.
    rewrite Hres, H200. reflexivity.
Qed.

Lemma only_status_200_counts_as_success_witness :
  let r := Examples.response 200 "" in
  let w := Examples.world (1 # 2) (Responded r) 0 in
  (next_outcome w = Responded r /\ (200 <= status_code r < 300)%Z) /\
  exists st' w',
    simulate_tick "http://localhost" "T" 5 (initial_state 34 (- (118))) w
      = Done st' w' /\
    update_count st' = 1%Z.
Proof.
  cbv zeta. split; [split; [reflexivity | cbn; lia]|].
  destruct (only_status_200_counts_as_success
              (Examples.response 200 "")
              (Examples.world (1 # 2) (Responded (Examples.response 200 "")) 0)
              eq_refl ltac:(cbn; lia)) as (_ & _ & Htick).
  apply (Htick "http://localhost" "T" 5 (initial_state 34 (- (118)))).
  discriminate.
Defined.

(** C2, as stated, fails for status 204: [send_telemetry] returns the
    response, but [main] prints the failure block and no success block,
    and an iteration of the simulation does not count the send. *)
Lemma status_204_is_not_treated_as_success :
  let r := Examples.response 204 "" in
  let w := Examples.world (1 # 2) (Responded r) 0 in
  (200 <= status_code r < 300)%Z /\
  (exists w',
      send_telemetry DEFAULT_SERVER "T" 34 (- (118)) None None None w
        = Done (Some r) w') /\
  (exists w',
      main 0 (Examples.single None None None) w = Done tt w' /\
      stdout w' =
        [L_sending_to DEFAULT_SERVER; L_failed; L_status_code 204; L_response ""] /\
      ~ In L_success (stdout w')) /\
  (exists st' w',
      simulate_tick DEFAULT_SERVER "T" 5 (initial_state 34 (- (118))) w
        = Done st' w' /\
      update_count st' = 0%Z /\
      stdout w' = [L_failed_update 1]).
Proof.
  cbv zeta. split; [cbn; lia|]. split; [|split].
  - eexists. vm_compute. reflexivity.
  - eexists. split; [vm_compute; reflexivity|]. split; [reflexivity|].
    cbn. intuition discriminate.
  - eexists _, _. split; [vm_compute; reflexivity|]. split; reflexivity.
Qed.




(* ================================================================== *)
(** * Usage errors *)

(** C7, as the code has it.  A command line without [--lat] or without
    [--lon], with or without [--simulate], makes no POST.  Unless it asks
    for help it ends in the parser's usage error (exit status 2, a
    message on standard error, nothing on standard output); with [-h] or
    [--help] it ends in the parser's help instead (exit status 0, the
    help on standard output, nothing on standard error). *)
Theorem missing_coordinates_is_usage_error :
  forall fuel cl w,
    cl_lat cl = None \/ cl_lon cl = None ->
    (cl_help cl = false ->
     exists w' msg,
       main fuel cl w = Raised (SystemExit 2) w' /\
       stderr w' = stderr w ++ [msg] /\
       exchanges w' = exchanges w /\
       length (new_exchanges w w') = 0%nat /\
       stdout w' = stdout w) /\
    (cl_help cl = true ->
     exists w',
       main fuel cl w = Raised (SystemExit 0) w' /\
       stdout w' = stdout w ++ [L_help] /\
       stderr w' = stderr w /\
       exchanges w' = exchanges w /\
       length (new_exchanges w w') = 0%nat).
Proof.
  intros fuel cl w Hmiss.
  assert (Hnew : forall l : list (Request * PostOutcome),
             length (skipn (length l) l) = 0%nat).
  { intros l. rewrite length_skipn. lia. }
  unfold main, parse_args, bind, new_exchanges. split; intros Hhelp; rewrite Hhelp.
  - destruct (cl_token cl) as [tok|].
    + unfold ret.
      cbn [args_simulate args_lat args_lon].
      destruct (cl_simulate cl);
        destruct (cl_lat cl) as [lat|], (cl_lon cl) as [lon|];
        try (destruct Hmiss; discriminate);
        unfold parser_error; eexists _, _;
        (split; [reflexivity|]); world_fields; auto.
    + unfold parser_error. eexists _, _.
      split; [reflexivity|]. world_fields. auto.
  - unfold parser_help. eexists. split; [reflexivity|]. world_fields. auto.
Qed.

Lemma missing_coordinates_is_usage_error_witness :
  (cl_lat (mkCommandLine (Some "T") None None None None None None true None None false)
     = None \/
   cl_lon (mkCommandLine (Some "T") None None None None None None true None None false)
     = None) /\
  cl_help (mkCommandLine (Some "T") None None None None None None true None None false)
    = false /\
  exists w' msg,
    main 0 (mkCommandLine (Some "T") None None None None None None true None None false)
      (Examples.world (1 # 2) (Examples.replies 200 "") 0)
      = Raised (SystemExit 2) w' /\
    stderr w' = [] ++ [msg] /\
    exchanges w' = [] /\
    length (new_exchanges (Examples.world (1 # 2) (Examples.replies 200 "") 0) w')
      = 0%nat /\
    stdout w' = [].
Proof.
  split; [left; reflexivity|]. split; [reflexivity|].
  apply (missing_coordinates_is_usage_error 0
           (mkCommandLine (Some "T") None None None None None None true None None false)
           (Examples.world (1 # 2) (Examples.replies 200 "") 0)).
  - left. reflexivity.
  - reflexivity.
Defined.

(** C7, as stated, fails for [--token T --help]: no [--lat], no
    [--lon], and the program ends with exit status 0 and the help on
    standard output, not in a usage error. *)
Lemma help_without_coordinates_exits_zero :
  cl_lat (mkCommandLine (Some "T") None None None None None None false None None true)
    = None /\
  exists w',
    main 0 (mkCommandLine (Some "T") None None None None None None false None None true)
      (Examples.world (1 # 2) (Examples.replies 200 "") 0)
      = Raised (SystemExit 0) w' /\
    stdout w' = [L_help] /\
    stderr w' = [] /\
    exchanges w' = [].
Proof.
  split; [reflexivity|]. eexists. split; [vm_compute; reflexivity|].
  repeat split.
Qed.

(* ================================================================== *)
(** * The reports of single-send mode *)

(** C8 at status 404 with body [oops].  [raise_for_status] turns the
    response into an exception, [send_telemetry] prints its message (the
    status code, the reason phrase and the URL) and returns [None], and
    the failure report of [main] has neither its status-code line nor its
    response line: the body is in no line of the output.  An ok response
    with a status other than 200 (304 here) does get the two lines, with
    the body. *)
Theorem status_404_body_is_not_printed :
  (exists w',
      main 0 (Examples.single None None None)
        (Examples.world (1 # 2) (Examples.replies 404 "oops") 0)
        = Done tt w' /\
      stdout w' =
        [L_sending_to DEFAULT_SERVER;
         L_error_sending
           (Text_http_error 404 "Not Found"
              "http://52.42.86.26:8081/api/v1/T/telemetry");
         L_failed] /\
      map render_line (stdout w') =
        [Some "Sending location data to http://52.42.86.26:8081...";
         Some "Error sending telemetry: 404 Client Error: Not Found for url: http://52.42.86.26:8081/api/v1/T/telemetry";
         Some "✗ Failed to send location data"] /\
      forallb (fun l => negb (line_mentions "oops" l)) (stdout w') = true /\
      ~ In (L_response "oops") (stdout w')) /\
  (exists w',
      main 0 (Examples.single None None None)
        (Examples.world (1 # 2) (Examples.replies 304 "oops") 0)
        = Done tt w' /\
      stdout w' =
        [L_sending_to DEFAULT_SERVER; L_failed;
         L_status_code 304; L_response "oops"] /\
      map render_line (stdout w') =
        [Some "Sending location data to http://52.42.86.26:8081...";
         Some "✗ Failed to send location data";
         Some "  Status code: 304";
         Some "  Response: oops"]).
Proof.
  split.
  - eexists. split; [vm_compute; reflexivity|]. split; [reflexivity|].
    split; [vm_compute; reflexivity|]. split; [vm_compute; reflexivity|].
    cbn. intuition discriminate.
  - eexists. split; [vm_compute; reflexivity|]. split; [reflexivity|].
    vm_compute. reflexivity.
Qed.

(** The success block: the two coordinates, then one line for each
    optional flag that was given with a value other than 0. *)
Lemma success_block_lines fuel cl tok lat lon w r :
  single_send cl tok lat lon ->
  next_outcome w = Responded r ->
  status_code r = 200%Z ->
  exists w',
    main fuel cl w = Done tt w' /\
    stdout w' =
      stdout w
        ++ [L_sending_to (from_default (cl_server cl) DEFAULT_SERVER);
            L_success; L_latitude lat; L_longitude lon]
        ++ flag_line (cl_batt cl) L_battery
        ++ flag_line (cl_acc cl) L_accuracy
        ++ flag_line (cl_alt cl) L_altitude.
Proof.
  intros Hcl Hout H200.
  destruct (main_single_done fuel cl tok lat lon w Hcl)
    as (w' & Hrun & _ & Hprinted & _).
  exists w'. split; [exact Hrun|]. rewrite Hprinted.
  assert (Hok : response_ok r = true) by (apply response_ok_below_400; lia).
  unfold single_report. rewrite Hout.
  cbn [sender_diagnostic sender_result]. rewrite Hok.
  unfold response_and_200, truthy_response. rewrite Hok, H200.
  reflexivity.
Qed.

(** C9 at [--batt 0].  The flag is given and [batt] is in the payload,
    but the success block has no battery line: [main] tests the value of
    the flag, which is false for 0, not whether it was given.  A flag
    given with another value gets its line ([--batt 87], while [--alt 0]
    does not), and with no optional flag the block is the two
    coordinates. *)
Theorem battery_zero_line_is_omitted :
  (exists w' req,
      main 0 (Examples.single (Some 0%Z) None None)
        (Examples.world (1 # 2) (Examples.replies 200 "") 0)
        = Done tt w' /\
      exchanges w' = [(req, Examples.replies 200 "")] /\
      json_member (req_data req) "batt" = Some (JInt 0) /\
      stdout w' =
        [L_sending_to DEFAULT_SERVER; L_success;
         L_latitude 34; L_longitude (- (118))] /\
      ~ In (L_battery 0) (stdout w')) /\
  (exists w',
      main 0 (Examples.single (Some 87%Z) None (Some 0%Z))
        (Examples.world (1 # 2) (Examples.replies 200 "") 0)
        = Done tt w' /\
      stdout w' =
        [L_sending_to DEFAULT_SERVER; L_success;
         L_latitude 34; L_longitude (- (118)); L_battery 87]) /\
  (exists w',
      main 0 (Examples.single None None None)
        (Examples.world (1 # 2) (Examples.replies 200 "") 0)
        = Done tt w' /\
      stdout w' =
        [L_sending_to DEFAULT_SERVER; L_success;
         L_latitude 34; L_longitude (- (118))]).
Proof.
  split; [|split].
  - eexists _, _. split; [vm_compute; reflexivity|].
    split; [reflexivity|]. split; [reflexivity|]. split; [reflexivity|].
    cbn. intuition discriminate.
  - eexists. split; [vm_compute; reflexivity | reflexivity].
  - eexists. split; [vm_compute; reflexivity | reflexivity].
Qed.

(* ================================================================== *)
(** * Iterations, one after another *)

(** With a negative interval the iteration ends in the [ValueError] of
    [time.sleep]. *)
Lemma simulate_tick_negative_interval server token interval st w :
  Py.ltb interval 0 = true ->
  exists msg w',
    simulate_tick server token interval st w = Raised (ValueError msg) w'.
Proof.
  intros Hint.
  unfold simulate_tick, random_uniform, random_randint, random_random, bind, ret.
  rewrite send_telemetry_done. cbv zeta.
  destruct (response_and_200 _);
    unfold bind, datetime_now, time_time, print, time_sleep, ret;
    rewrite Hint; eexists _, _; reflexivity.
Qed.

Lemma simulate_tick_inv server token interval st w st' w' :
  simulate_tick server token interval st w = Done st' w' ->
  Py.ltb interval 0 = false /\
  st' = tick_state st w /\
  exchanges w' = exchanges w ++ [(tick_request server token st w, next_outcome w)] /\
  clock w' = clock w + next_took w + interval /\
  rng w' = rng w /\
  rng_pos w' = (5 + rng_pos w)%nat /\
  net w' = net w /\
  stdout w' = stdout w ++ sender_diagnostic (next_outcome w) ++ [tick_report st w] /\
  stderr w' = stderr w.
Proof.
  intros Hrun. destruct (Py.ltb interval 0) eqn:Hint.
  - destruct (simulate_tick_negative_interval server token interval st w Hint)
      as (msg & w1 & Hraise).
    rewrite Hraise in Hrun. discriminate.
  - destruct (simulate_tick_done server token interval st w Hint)
      as (w1 & Hdone & Hrest).
    rewrite Hdone in Hrun. inversion Hrun; subst.
    split; [reflexivity|]. split; [reflexivity|]. exact Hrest.
Qed.

(** A finished loop ends in a state of the run. *)
Lemma simulate_loop_run fuel server token duration interval start st w st' w' :
  simulate_loop fuel server token duration interval start st w = Done st' w' ->
  run_from server token interval st w st' w'.
Proof.
  intros Hrun.
  apply (simulate_loop_rule (run_from server token interval st w)
           server token duration interval start) with (fuel := fuel) (st := st) (w := w).
  - intros s x s1 x1 HP _ Htick. eapply run_tick; eauto.
  - apply run_start.
  - exact Hrun.
Qed.

Lemma run_from_rng server token interval st0 w0 st w :
  run_from server token interval st0 w0 st w -> rng w = rng w0.
Proof.
  induction 1 as [|st w st' w' _ IH Htick]; [reflexivity|].
  apply simulate_tick_inv in Htick.
  destruct Htick as (_ & _ & _ & _ & Hrng & _). congruence.
Qed.

Lemma tick_drain_bounds w :
  rng_ok w -> 1 # 10 <= tick_drain w /\ tick_drain w <= 1 # 2.
Proof.
  intros Hok. unfold tick_drain, drawn_uniform.
  destruct (Hok (2 + rng_pos w)%nat) as [H0 H1].
  apply uniform_bounds; [lra | exact H0 | exact H1].
Qed.

Lemma tick_battery_bounds st w :
  rng_ok w -> 0 <= battery st ->
  0 <= tick_battery st w /\ tick_battery st w <= battery st.
Proof.
  intros Hok Hb. unfold tick_battery.
  destruct (tick_drain_bounds w Hok) as [Hlo _].
  apply max_zero_bounds; lra.
Qed.

Lemma run_from_battery server token interval lat lon w0 st w :
  rng_ok w0 ->
  run_from server token interval (initial_state lat lon) w0 st w ->
  0 <= battery st /\ battery st <= 100.
Proof.
  intros Hok. induction 1 as [|st w st' w' Hreach IH Htick].
  - cbn. split; lra.
  - apply simulate_tick_inv in Htick. destruct Htick as (_ & -> & _).
    cbn [battery tick_state].
    assert (Hokw : rng_ok w).
    { unfold rng_ok. rewrite (run_from_rng _ _ _ _ _ _ _ Hreach). exact Hok. }
    destruct (tick_battery_bounds st w Hokw (proj1 IH)). lra.
Qed.

(* ================================================================== *)
(** * The battery *)



(* ================================================================== *)
(** * Rounding to six decimals *)

Lemma round_half_even_close (x : Q) :
  - (1 # 2) <= inject_Z (Py.round_half_even x) - x /\
  inject_Z (Py.round_half_even x) - x <= 1 # 2.
Proof.
  unfold Py.round_half_even.
  pose proof (Qfloor_le x) as Hlo.
  pose proof (Qlt_floor x) as Hhi.
  rewrite inject_Z_plus in Hhi. change (inject_Z 1) with 1 in Hhi.
  destruct (Qcompare (x - inject_Z (Qfloor x)) (1 # 2)) eqn:Hc.
  - apply Qeq_alt in Hc.
    destruct (Z.even (Qfloor x));
      rewrite ?inject_Z_plus; change (inject_Z 1) with 1; split; lra.
  - apply Qlt_alt in Hc. split; lra.
  - apply Qgt_alt in Hc.
    rewrite inject_Z_plus. change (inject_Z 1) with 1. split; lra.
Qed.

(** [round(x, 6)] is a whole number of millionths, at most half a
    millionth away from [x]. *)
Lemma round6_spec (x : Q) :
  (exists k : Z, Py.round x 6 == inject_Z k * (1 # 1000000)) /\
  - (1 # 2000000) <= Py.round x 6 - x /\
  Py.round x 6 - x <= 1 # 2000000.
Proof.
  unfold Py.round.
  assert (Hs : Qpower (inject_Z 10) 6 = 1000000 # 1) by (vm_compute; reflexivity).
  rewrite Hs.
  pose proof (round_half_even_close (x * (1000000 # 1))) as [Hlo Hhi].
  set (k := Py.round_half_even (x * (1000000 # 1))) in *.
  assert (Hdiv : inject_Z k / (1000000 # 1) == inject_Z k * (1 # 1000000))
    by (unfold Qdiv; reflexivity).
  split.
  - exists k. exact Hdiv.
  - rewrite Hdiv. split; lra.
Qed.

(* ================================================================== *)
(** * What the simulation sends *)

Lemma tick_request_bounded server token st w :
  rng_ok w -> 0 <= battery st -> battery st <= 100 ->
  bounded_fields (tick_request server token st w).
Proof.
  intros Hok Hb0 Hb100.
  exists (Py.int (tick_battery st w)), (tick_accuracy w), (tick_altitude w).
  unfold tick_request, telemetry_request. cbn [req_data].
  destruct (build_payload_members (clock w)
              (Py.round (tick_lat st w) 6) (Py.round (tick_lon st w) 6)
              (Some (Py.int (tick_battery st w)))
              (Some (tick_accuracy w)) (Some (tick_altitude w)))
    as (_ & _ & _ & _ & Hbatt & Hacc & Halt).
  destruct (tick_battery_bounds st w Hok Hb0) as [H0 H1].
  split; [exact Hbatt|]. split.
  { apply int_bounds; [exact H0 | exact H0 |].
    change (inject_Z 100) with 100. lra. }
  split; [exact Hacc|]. split.
  { unfold tick_accuracy, drawn_randint.
    destruct (Hok (3 + rng_pos w)%nat). apply randint_bounds; [lia|assumption..]. }
  split; [exact Halt|].
  unfold tick_altitude, drawn_randint.
  destruct (Hok (4 + rng_pos w)%nat). apply randint_bounds; [lia|assumption..].
Qed.

Lemma simulate_tick_raises server token interval st w :
  Py.ltb interval 0 = true ->
  exists msg w',
    simulate_tick server token interval st w = Raised (ValueError msg) w' /\
    exchanges w' = exchanges w ++ [(tick_request server token st w, next_outcome w)] /\
    stdout w' = stdout w ++ sender_diagnostic (next_outcome w) ++ [tick_report st w].
Proof.
  intros Hint.
  unfold simulate_tick, random_uniform, random_randint, random_random, bind, ret.
  rewrite send_telemetry_done. cbv zeta.
  unfold tick_state, tick_count, tick_report, next_outcome, next_took,
    tick_request, after_post.
  cbn [clock exchanges set_rng_pos rng rng_pos net stdout stderr].
  destruct (net w (length (exchanges w))) as [o took]. cbn [fst snd].
  unfold bind, datetime_now, time_time, print, time_sleep, ret.
  destruct (response_and_200 (sender_result o));
    cbn [set_stdout set_clock set_exchanges clock exchanges rng rng_pos net stdout stderr];
    rewrite Hint; eexists _, _; (split; [reflexivity|]);
    cbn [set_stdout set_clock set_exchanges clock exchanges rng rng_pos net stdout stderr];
    rewrite <- ?app_assoc; repeat split.
Qed.

Lemma request_lat_tick server token st w :
  request_lat (tick_request server token st w) = Some (Py.round (tick_lat st w) 6) /\
  request_lon (tick_request server token st w) = Some (Py.round (tick_lon st w) 6).
Proof.
  unfold request_lat, request_lon, tick_request, telemetry_request.
  cbn [req_data].
  destruct (build_payload_members (clock w)
              (Py.round (tick_lat st w) 6) (Py.round (tick_lon st w) 6)
              (Some (Py.int (tick_battery st w)))
              (Some (tick_accuracy w)) (Some (tick_altitude w)))
    as (_ & Hlat & Hlon & _).
  rewrite Hlat, Hlon. split; reflexivity.
Qed.

Lemma round_half_even_tie (x : Q) :
  Qabs (inject_Z (Py.round_half_even x) - x) == 1 # 2 ->
  Z.even (Py.round_half_even x) = true.
Proof.
  unfold Py.round_half_even.
  pose proof (Qfloor_le x) as Hlo.
  pose proof (Qlt_floor x) as Hhi.
  rewrite inject_Z_plus in Hhi. change (inject_Z 1) with 1 in Hhi.
  destruct (Qcompare (x - inject_Z (Qfloor x)) (1 # 2)) eqn:Hc.
  - destruct (Z.even (Qfloor x)) eqn:E; intros _; [exact E|].
    rewrite Z.add_1_r, Z.even_succ, <- Z.negb_even, E. reflexivity.
  - apply Qlt_alt in Hc. intros Habs. exfalso.
    rewrite Qabs_neg in Habs by lra. lra.
  - apply Qgt_alt in Hc. intros Habs. exfalso.
    rewrite inject_Z_plus in Habs. change (inject_Z 1) with 1 in Habs.
    rewrite Qabs_pos in Habs by lra. lra.
Qed.

Lemma round6_exact (x : Q) : rounded_to_millionths x (Py.round x 6).
Proof.
  unfold rounded_to_millionths, Py.round.
  assert (Hs : Qpower (inject_Z 10) 6 = 1000000 # 1) by (vm_compute; reflexivity).
  rewrite Hs.
  exists (Py.round_half_even (x * (1000000 # 1))).
  pose proof (round_half_even_close (x * (1000000 # 1))) as [Hlo Hhi].
  split; [unfold Qdiv; reflexivity|].
  split; [exact Hlo|]. split; [exact Hhi|].
  apply round_half_even_tie.
Qed.

Lemma tick_request_simulated server token st w :
  rng_ok w -> 0 <= battery st -> battery st <= 100 ->
  simulated_request (tick_request server token st w).
Proof.
  intros Hok Hb0 Hb100. split; [apply tick_request_bounded; assumption|].
  destruct (request_lat_tick server token st w) as [Hla Hlo].
  exists (Py.round (tick_lat st w) 6), (Py.round (tick_lon st w) 6).
  split; [exact Hla|]. split; [exact Hlo|].
  split; apply round6_spec.
Qed.

(** Whether its sleep raises or not, an iteration has made its POST. *)
Lemma simulate_tick_final server token interval st w :
  exists w',
    final_world (simulate_tick server token interval st w) = Some w' /\
    exchanges w' = exchanges w ++ [(tick_request server token st w, next_outcome w)].
Proof.
  destruct (Py.ltb interval 0) eqn:Hint.
  - destruct (simulate_tick_raises server token interval st w Hint)
      as (msg & w' & Hrun & Hex & _).
    exists w'. rewrite Hrun. split; [reflexivity | exact Hex].
  - destruct (simulate_tick_done server token interval st w Hint)
      as (w' & Hrun & Hex & _).
    exists w'. rewrite Hrun. split; [reflexivity | exact Hex].
Qed.

Lemma run_from_cons server token interval st w st2 w2 st1 w1 :
  simulate_tick server token interval st w = Done st2 w2 ->
  run_from server token interval st2 w2 st1 w1 ->
  run_from server token interval st w st1 w1.
Proof.
  intros Htick Hreach. induction Hreach as [|s x s' x' _ IH Hstep].
  - eapply run_tick; [apply run_start | exact Htick].
  - eapply run_tick; [exact IH | exact Hstep].
Qed.

(** A loop that returned or raised stopped either at a state of the run
    or in an iteration begun at one. *)
Lemma simulate_loop_final server token duration interval start fuel :
  forall st w w',
    final_world (simulate_loop fuel server token duration interval start st w)
      = Some w' ->
    exists st1 w1,
      run_from server token interval st w st1 w1 /\
      (w' = w1 \/
       final_world (simulate_tick server token interval st1 w1) = Some w').
Proof.
  induction fuel as [|fuel IH]; intros st w w' Hfin; [discriminate|].
  rewrite simulate_loop_unfold in Hfin.
  destruct (Py.ltb (clock w - start) duration).
  - destruct (simulate_tick server token interval st w) as [st2 w2|e w2|] eqn:Htick.
    + destruct (IH st2 w2 w' Hfin) as (st1 & w1 & Hreach & Hend).
      exists st1, w1. split; [|exact Hend].
      eapply run_from_cons; eauto.
    + exists st, w. split; [apply run_start|]. right.
      rewrite Htick. exact Hfin.
    + discriminate.
  - cbn [final_world] in Hfin. exists st, w.
    split; [apply run_start | left; congruence].
Qed.

Lemma run_from_simulated server token interval lat lon w0 st w :
  rng_ok w0 ->
  run_from server token interval (initial_state lat lon) w0 st w ->
  exists sent,
    exchanges w = exchanges w0 ++ sent /\
    Forall (fun x => simulated_request (fst x)) sent.
Proof.
  intros Hok Hreach.
  induction Hreach as [|st w st' w' Hreach IH Htick].
  - exists []. rewrite app_nil_r. split; [reflexivity | constructor].
  - destruct IH as (sent & Hex & Hall).
    pose proof (run_from_battery _ _ _ _ _ _ _ _ Hok Hreach) as [Hb0 Hb100].
    assert (Hokw : rng_ok w).
    { unfold rng_ok. rewrite (run_from_rng _ _ _ _ _ _ _ Hreach). exact Hok. }
    apply simulate_tick_inv in Htick.
    destruct Htick as (_ & _ & Hex' & _).
    exists (sent ++ [(tick_request server token st w, next_outcome w)]).
    split.
    + rewrite Hex', Hex, app_assoc. reflexivity.
    + apply Forall_app. split; [exact Hall|].
      constructor; [|constructor].
      apply tick_request_simulated; assumption.
Qed.

(** C10.  In a simulation with a well-formed random generator, every
    iteration begun makes one POST, whether or not its sleep raises
    afterwards, and the request has [batt], [acc] and [alt]: [batt] is
    the integer part of the battery after the drain, within 0..100, [acc]
    is within 5..20 and [alt] within 50..100.  Its [lat] and [lon] are
    the new position rounded to six decimals as Python rounds (a whole
    number of millionths, the nearest one, the even one on a tie), while
    the state handed to the next iteration holds the position unrounded,
    the old one plus the drawn step.  All requests of a loop that
    returned or raised are of this kind. *)
Theorem simulation_sends_bounded_fields_and_rounded_position :
  forall server token interval start_lat start_lon w0,
    rng_ok w0 ->
    (forall st w,
        run_from server token interval (initial_state start_lat start_lon) w0 st w ->
        exists w' req sent_lat sent_lon,
          final_world (simulate_tick server token interval st w) = Some w' /\
          exchanges w' = exchanges w ++ [(req, next_outcome w)] /\
          bounded_fields req /\
          json_member (req_data req) "batt" =
            Some (JInt (Py.int (Py.max 0 (battery st - tick_drain w)))) /\
          json_member (req_data req) "lat" = Some (JNum sent_lat) /\
          json_member (req_data req) "lon" = Some (JNum sent_lon) /\
          rounded_to_millionths
            (current_lat st + drawn_uniform (- (1 # 1000)) (1 # 1000) w 0) sent_lat /\
          rounded_to_millionths
            (current_lon st + drawn_uniform (- (1 # 1000)) (1 # 1000) w 1) sent_lon /\
          (forall st' w'',
              simulate_tick server token interval st w = Done st' w'' ->
              current_lat st' =
                current_lat st + drawn_uniform (- (1 # 1000)) (1 # 1000) w 0 /\
              current_lon st' =
                current_lon st + drawn_uniform (- (1 # 1000)) (1 # 1000) w 1 /\
              battery st' = Py.max 0 (battery st - tick_drain w))) /\
    (forall fuel duration start w',
        final_world
          (simulate_loop fuel server token duration interval start
             (initial_state start_lat start_lon) w0) = Some w' ->
        exists sent,
          exchanges w' = exchanges w0 ++ sent /\
          Forall (fun x => simulated_request (fst x)) sent).
Proof.
  intros server token interval start_lat start_lon w0 Hok. split.
  - intros st w Hreach.
    pose proof (run_from_battery _ _ _ _ _ _ _ _ Hok Hreach) as [Hb0 Hb100].
    assert (Hokw : rng_ok w).
    { unfold rng_ok. rewrite (run_from_rng _ _ _ _ _ _ _ Hreach). exact Hok. }
    destruct (simulate_tick_final server token interval st w) as (w' & Hfin & Hex).
    exists w', (tick_request server token st w),
      (Py.round (tick_lat st w) 6), (Py.round (tick_lon st w) 6).
    split; [exact Hfin|]. split; [exact Hex|].
    split; [apply tick_request_bounded; assumption|].
    destruct (build_payload_members (clock w)
                (Py.round (tick_lat st w) 6) (Py.round (tick_lon st w) 6)
                (Some (Py.int (tick_battery st w)))
                (Some (tick_accuracy w)) (Some (tick_altitude w)))
      as (_ & Hlat & Hlon & _ & Hbatt & _).
    split; [exact Hbatt|]. split; [exact Hlat|]. split; [exact Hlon|].
    split; [apply round6_exact|]. split; [apply round6_exact|].
    intros st' w'' Htick.
    apply simulate_tick_inv in Htick. destruct Htick as (_ & -> & _).
    repeat split.
  - intros fuel duration start w' Hfin.
    apply simulate_loop_final in Hfin.
    destruct Hfin as (st1 & w1 & Hreach & Hend).
    destruct (run_from_simulated _ _ _ _ _ _ _ _ Hok Hreach) as (sent & Hex & Hall).
    destruct Hend as [->|Hend]; [exists sent; auto|].
    destruct (simulate_tick_final server token interval st1 w1) as (x & Hx & Hex').
    rewrite Hx in Hend. inversion Hend; subst x.
    pose proof (run_from_battery _ _ _ _ _ _ _ _ Hok Hreach) as [Hb0 Hb100].
    assert (Hokw : rng_ok w1).
    { unfold rng_ok. rewrite (run_from_rng _ _ _ _ _ _ _ Hreach). exact Hok. }
    exists (sent ++ [(tick_request server token st1 w1, next_outcome w1)]).
    split; [rewrite Hex', Hex, app_assoc; reflexivity|].
    apply Forall_app. split; [exact Hall|].
    constructor; [|constructor].
    apply tick_request_simulated; assumption.
Qed.

Lemma simulation_sends_bounded_fields_and_rounded_position_witness :
  rng_ok (Examples.world (1 # 3) (Examples.replies 200 "") 0) /\
  (exists w' sent,
      final_world
        (simulate_loop 4 DEFAULT_SERVER "T" 12 5 0 (initial_state 34 (- (118)))
           (Examples.world (1 # 3) (Examples.replies 200 "") 0)) = Some w' /\
      exchanges w' = [] ++ sent /\
      length sent = 3%nat /\
      Forall (fun x => simulated_request (fst x)) sent) /\
  (exists w' sent,
      final_world
        (simulate_loop 4 DEFAULT_SERVER "T" 12 (- (1)) 0 (initial_state 34 (- (118)))
           (Examples.world (1 # 3) (Examples.replies 200 "") 0)) = Some w' /\
      exchanges w' = [] ++ sent /\
      length sent = 1%nat /\
      Forall (fun x => simulated_request (fst x)) sent).
Proof.
  assert (Hok : rng_ok (Examples.world (1 # 3) (Examples.replies 200 "") 0)).
  { intros n. cbn. split; [discriminate | reflexivity]. }
  split; [exact Hok|].
  destruct (simulation_sends_bounded_fields_and_rounded_position
              DEFAULT_SERVER "T" 5 34 (- (118)) _ Hok) as [_ Hloop].
  destruct (simulation_sends_bounded_fields_and_rounded_position
              DEFAULT_SERVER "T" (- (1)) 34 (- (118)) _ Hok) as [_ Hloop'].
  split.
  - assert (Hrun : exists w',
               final_world
                 (simulate_loop 4 DEFAULT_SERVER "T" 12 5 0 (initial_state 34 (- (118)))
                    (Examples.world (1 # 3) (Examples.replies 200 "") 0)) = Some w' /\
               length (exchanges w') = 3%nat).
    { eexists. split; [vm_compute; reflexivity | reflexivity]. }
    destruct Hrun as (w' & Hfin & Hlen).
    destruct (Hloop 4%nat 12 0 w' Hfin) as (sent & Hex & Hall).
    exists w', sent. split; [exact Hfin|]. split; [exact Hex|].
    split; [|exact Hall]. rewrite Hex in Hlen. exact Hlen.
  - assert (Hrun : exists w',
               final_world
                 (simulate_loop 4 DEFAULT_SERVER "T" 12 (- (1)) 0
                    (initial_state 34 (- (118)))
                    (Examples.world (1 # 3) (Examples.replies 200 "") 0)) = Some w' /\
               length (exchanges w') = 1%nat).
    { eexists. split; [vm_compute; reflexivity | reflexivity]. }
    destruct Hrun as (w' & Hfin & Hlen).
    destruct (Hloop' 4%nat 12 0 w' Hfin) as (sent & Hex & Hall).
    exists w', sent. split; [exact Hfin|]. split; [exact Hex|].
    split; [|exact Hall]. rewrite Hex in Hlen. exact Hlen.
Defined.

(* ================================================================== *)
(** * A whole simulation *)

Lemma simulate_movement_unfold fuel server token start_lat start_lon duration interval w :
  simulate_movement fuel server token start_lat start_lon duration interval w =
    match simulate_loop fuel server token duration interval (clock w)
            (initial_state start_lat start_lon)
            (header_world start_lat start_lon duration interval w) with
    | Done st w1 => Done tt (printed (printed w1 L_rule) (L_complete (update_count st)))
    | Raised e w1 => Raised e w1
    | Diverge => Diverge
    end.
Proof.
  unfold simulate_movement. rewrite !bind_print. cbv beta zeta.
  unfold bind at 1, time_time at 1. unfold bind at 1.
  fold (printed w L_starting).
  fold (printed (printed w L_starting) (L_initial_position start_lat start_lon)).
  fold (printed (printed (printed w L_starting)
                   (L_initial_position start_lat start_lon))
          (L_duration_interval duration interval)).
  fold (printed (printed (printed (printed w L_starting)
                            (L_initial_position start_lat start_lon))
                   (L_duration_interval duration interval)) L_rule).
  fold (header_world start_lat start_lon duration interval w).
  change (clock (header_world start_lat start_lon duration interval w))
    with (clock w).
  destruct (simulate_loop _ _ _ _ _ _ _ _) as [st w1| |]; reflexivity.
Qed.

Lemma count_app {A} (f : A -> bool) (l1 l2 : list A) :
  count f (l1 ++ l2) = (count f l1 + count f l2)%nat.
Proof. unfold count. rewrite filter_app, length_app. reflexivity. Qed.

Lemma confirmed_returned x : confirmed x = true -> returned x = true.
Proof.
  unfold confirmed, returned, response_and_200, truthy_response.
  destruct (sender_result (snd x)); [reflexivity | discriminate].
Qed.

Lemma count_confirmed_le_returned l : (count confirmed l <= count returned l)%nat.
Proof.
  unfold count. induction l as [|x l IH]; [reflexivity|]. cbn [filter].
  destruct (confirmed x) eqn:E.
  - rewrite (confirmed_returned x E). cbn [length]. lia.
  - destruct (returned x); cbn [length]; lia.
Qed.

Lemma run_from_count server token interval st0 w0 st w :
  run_from server token interval st0 w0 st w ->
  exists sent,
    exchanges w = exchanges w0 ++ sent /\
    update_count st = (update_count st0 + Z.of_nat (count confirmed sent))%Z /\
    Forall (fun x => exists n, snd x = fst (net w0 n)) sent /\
    net w = net w0.
Proof.
  induction 1 as [|st w st' w' Hreach IH Htick].
  - exists []. rewrite app_nil_r. cbn.
    repeat split; try constructor; lia.
  - destruct IH as (sent & Hex & Hcount & Hall & Hnet).
    apply simulate_tick_inv in Htick.
    destruct Htick as (Hint & -> & Hex' & Hclock' & _ & _ & Hnet' & _).
    exists (sent ++ [(tick_request server token st w, next_outcome w)]).
    split; [rewrite Hex', Hex, app_assoc; reflexivity|].
    split.
    { rewrite count_app. cbn [update_count tick_state]. unfold tick_count.
      unfold count at 2. cbn [filter]. unfold confirmed at 2. cbn [snd].
      destruct (response_and_200 (sender_result (next_outcome w)));
        cbn [length]; lia. }
    split.
    { apply Forall_app. split; [exact Hall|].
      constructor; [|constructor]. cbn [snd]. unfold next_outcome.
      rewrite Hnet. eauto. }
    congruence.
Qed.

Lemma skipn_prefix {A} (l sent : list A) :
  skipn (length l) (l ++ sent) = sent.
Proof.
  induction l as [|a l IH]; [reflexivity | exact IH].
Qed.

Lemma simulate_movement_inv fuel server token start_lat start_lon duration interval w w' :
  simulate_movement fuel server token start_lat start_lon duration interval w
    = Done tt w' ->
  exists st' w1,
    simulate_loop fuel server token duration interval (clock w)
      (initial_state start_lat start_lon)
      (header_world start_lat start_lon duration interval w) = Done st' w1 /\
    w' = printed (printed w1 L_rule) (L_complete (update_count st')).
Proof.
  rewrite simulate_movement_unfold.
  destruct (simulate_loop _ _ _ _ _ _ _ _) as [st w1| |]; try discriminate.
  intros H. inversion H. eauto.
Qed.

Lemma simulate_movement_terminates server token start_lat start_lon duration interval w :
  0 < interval -> net_ok w ->
  exists fuel0, forall fuel, (fuel0 <= fuel)%nat ->
    exists w',
      simulate_movement fuel server token start_lat start_lon duration interval w
        = Done tt w'.
Proof.
  intros Hpos Hnet.
  destruct (intervals_cover interval duration Hpos) as [n Hn].
  exists (S n). intros fuel Hfuel.
  destruct fuel as [|m]; [lia|].
  rewrite simulate_movement_unfold.
  destruct (simulate_loop_terminates server token duration interval (clock w) Hpos m
              (initial_state start_lat start_lon)
              (header_world start_lat start_lon duration interval w))
    as (st' & w1 & Hrun).
  - exact Hnet.
  - change (clock (header_world start_lat start_lon duration interval w))
      with (clock w).
    assert (Hmn : inject_Z (Z.of_nat n) <= inject_Z (Z.of_nat m))
      by (rewrite <- Zle_Qle; lia).
    assert (interval * inject_Z (Z.of_nat n) <= interval * inject_Z (Z.of_nat m))
      by (apply Qmult_le_l; assumption).
    lra.
  - rewrite Hrun. eauto.
Qed.

(** What a finished simulation leaves behind. *)
Lemma simulate_movement_summary fuel server token start_lat start_lon duration interval w w' :
  simulate_movement fuel server token start_lat start_lon duration interval w
    = Done tt w' ->
  exists sent before,
    exchanges w' = exchanges w ++ sent /\
    Forall (fun x => exists n, snd x = fst (net w n)) sent /\
    stdout w' = before ++ [L_complete (Z.of_nat (count confirmed sent))].
Proof.
  intros Hrun.
  apply simulate_movement_inv in Hrun. destruct Hrun as (st' & w1 & Hloop & ->).
  apply simulate_loop_run in Hloop.
  apply run_from_count in Hloop.
  destruct Hloop as (sent & Hex & Hcount & Hall & _).
  exists sent, (stdout w1 ++ [L_rule]).
  split; [exact Hex|]. split; [exact Hall|].
  cbn [update_count initial_state] in Hcount. rewrite Hcount.
  reflexivity.
Qed.

(** With a negative interval the first [time.sleep] raises, and the
    simulation ends in that [ValueError] after one iteration. *)
Lemma negative_interval_raises :
  exists msg w',
    simulate_movement 2 DEFAULT_SERVER "T" 34 (- (118)) 10 (- (1))
      (Examples.world (1 # 2) (Failed ConnectionError) 0)
      = Raised (ValueError msg) w' /\
    length (exchanges w') = 1%nat.
Proof.
  eexists _, _. split; [vm_compute; reflexivity | reflexivity].
Qed.

(* ================================================================== *)
(** * The update counter *)

(** The loop is left after finitely many iterations when each of them
    takes at least [eps] seconds, sleep and POST together. *)
Lemma simulate_loop_terminates_paced server token duration interval start eps :
  0 <= interval -> 0 < eps ->
  forall n st w,
    (forall k, eps <= interval + snd (net w k)) ->
    duration - (clock w - start) <= eps * inject_Z (Z.of_nat n) ->
    exists st' w',
      simulate_loop (S n) server token duration interval start st w = Done st' w'.
Proof.
  intros Hint Heps. induction n as [|n IH]; intros st w Hpace Hleft.
  - rewrite simulate_loop_unfold.
    destruct (Py.ltb (clock w - start) duration) eqn:Htest.
    + apply ltb_true in Htest.
      change (inject_Z (Z.of_nat 0)) with 0 in Hleft. lra.
    + eauto.
  - rewrite simulate_loop_unfold.
    destruct (Py.ltb (clock w - start) duration) eqn:Htest; [|eauto].
    assert (Hlt : Py.ltb interval 0 = false) by (apply ltb_false; exact Hint).
    destruct (simulate_tick_done server token interval st w Hlt)
      as (w1 & Htick & _ & Hclock & _ & _ & Hnet1 & _).
    rewrite Htick. apply IH.
    + intros k. rewrite Hnet1. apply Hpace.
    + rewrite Hclock. rewrite of_nat_succ_Q in Hleft.
      pose proof (Hpace (length (exchanges w))) as Hstep.
      unfold next_took.
      assert (Hmul : eps * (inject_Z (Z.of_nat n) + 1)
                     == eps * inject_Z (Z.of_nat n) + eps) by ring.
      rewrite Hmul in Hleft. lra.
Qed.

Lemma simulate_movement_terminates_paced
    server token start_lat start_lon duration interval eps w :
  0 <= interval -> 0 < eps ->
  (forall k, eps <= interval + snd (net w k)) ->
  exists fuel0, forall fuel, (fuel0 <= fuel)%nat ->
    exists w',
      simulate_movement fuel server token start_lat start_lon duration interval w
        = Done tt w'.
Proof.
  intros Hint Heps Hpace.
  destruct (intervals_cover eps duration Heps) as [n Hn].
  exists (S n). intros fuel Hfuel.
  destruct fuel as [|m]; [lia|].
  rewrite simulate_movement_unfold.
  destruct (simulate_loop_terminates_paced server token duration interval (clock w)
              eps Hint Heps m (initial_state start_lat start_lon)
              (header_world start_lat start_lon duration interval w))
    as (st' & w1 & Hrun).
  - exact Hpace.
  - change (clock (header_world start_lat start_lon duration interval w))
      with (clock w).
    assert (Hmn : inject_Z (Z.of_nat n) <= inject_Z (Z.of_nat m))
      by (rewrite <- Zle_Qle; lia).
    assert (eps * inject_Z (Z.of_nat n) <= eps * inject_Z (Z.of_nat m))
      by (apply Qmult_le_l; assumption).
    lra.
  - rewrite Hrun. eauto.
Qed.

(** C4, as the code has it.  When a simulation ends, the number in its
    last line is the number of its sends that came back with status 200,
    which is at most the number of sends for which [send_telemetry]
    returned the response.  An iteration either adds one to
    [update_count], and then its send came back with status 200, or
    leaves it as it is.  With an interval that [time.sleep] takes (from 0
    up to [sleep_limit]) and iterations that each take at least some
    fixed time, sleep and POST together, the simulation ends without
    raising, and when every send fails it reports 0. *)
Theorem update_count_counts_status_200 :
  forall server token start_lat start_lon duration interval w,
    (forall fuel w',
        simulate_movement fuel server token start_lat start_lon duration interval w
          = Done tt w' ->
        exists sent before,
          exchanges w' = exchanges w ++ sent /\
          stdout w' = before ++ [L_complete (Z.of_nat (count confirmed sent))] /\
          (count confirmed sent <= count returned sent)%nat) /\
    (forall st w1 st' w1',
        simulate_tick server token interval st w1 = Done st' w1' ->
        (update_count st' = (update_count st + 1)%Z /\
         exists r, next_outcome w1 = Responded r /\ status_code r = 200%Z) \/
        (update_count st' = update_count st /\
         ~ exists r, next_outcome w1 = Responded r /\ status_code r = 200%Z)) /\
    (0 <= interval -> interval <= sleep_limit ->
     forall eps, 0 < eps ->
     (forall n, eps <= interval + snd (net w n)) ->
     exists fuel0, forall fuel, (fuel0 <= fuel)%nat ->
       exists w',
         simulate_movement fuel server token start_lat start_lon duration interval w
           = Done tt w' /\
         ((forall n, sender_result (fst (net w n)) = None) ->
          exists before, stdout w' = before ++ [L_complete 0])).
Proof.
  intros server token start_lat start_lon duration interval w.
  split; [|split].
  - intros fuel w' Hrun.
    destruct (simulate_movement_summary _ _ _ _ _ _ _ _ _ Hrun)
      as (sent & before & Hex & _ & Hout).
    exists sent, before. split; [exact Hex|]. split; [exact Hout|].
    apply count_confirmed_le_returned.
  - intros st w1 st' w1' Htick.
    apply simulate_tick_inv in Htick. destruct Htick as (_ & -> & _).
    cbn [update_count tick_state]. unfold tick_count.
    destruct (response_and_200 (sender_result (next_outcome w1))) eqn:E.
    + left. split; [reflexivity|]. apply response_and_200_iff. exact E.
    + right. split; [reflexivity|]. intros H.
      apply response_and_200_iff in H. congruence.
  - intros Hint _ eps Heps Hpace.
    destruct (simulate_movement_terminates_paced server token start_lat start_lon
                duration interval eps w Hint Heps Hpace) as (fuel0 & Hfuel).
    exists fuel0. intros fuel Hge.
    destruct (Hfuel fuel Hge) as (w' & Hrun).
    exists w'. split; [exact Hrun|].
    intros Hfail.
    destruct (simulate_movement_summary _ _ _ _ _ _ _ _ _ Hrun)
      as (sent & before & _ & Hall & Hout).
    exists before. rewrite Hout.
    replace (count confirmed sent) with 0%nat; [reflexivity|].
    symmetry. unfold count. clear Hout.
    induction Hall as [|x l (n & Hx) _ IH]; [reflexivity|].
    cbn [filter]. unfold confirmed at 1. rewrite Hx, Hfail. cbn. exact IH.
Qed.

Lemma update_count_counts_status_200_witness :
  ((0 <= 0 /\ 0 <= sleep_limit /\ 0 < 1 # 4 /\
    (forall n, 1 # 4 <= 0 + snd (net (Examples.world (1 # 2) (Failed ConnectionError) (1 # 4)) n)) /\
    forall n,
      sender_result (fst (net (Examples.world (1 # 2) (Failed ConnectionError) (1 # 4)) n))
        = None) /\
   exists fuel w' before,
     simulate_movement fuel DEFAULT_SERVER "T" 34 (- (118)) 1 0
       (Examples.world (1 # 2) (Failed ConnectionError) (1 # 4)) = Done tt w' /\
     stdout w' = before ++ [L_complete 0]) /\
  exists w' sent before,
    simulate_movement 4 DEFAULT_SERVER "T" 34 (- (118)) 12 5
      (Examples.flaky (1 # 2) (1 # 10)) = Done tt w' /\
    exchanges w' = [] ++ sent /\
    length sent = 3%nat /\
    count confirmed sent = 2%nat /\
    stdout w' = before ++ [L_complete (Z.of_nat (count confirmed sent))].
Proof.
  split.
  - assert (Hlim : 0 <= sleep_limit) by (cbn; discriminate).
    assert (Hpace : forall n,
               1 # 4 <= 0 + snd (net (Examples.world (1 # 2) (Failed ConnectionError) (1 # 4)) n)).
    { intros n. cbn. discriminate. }
    split.
    { split; [discriminate|]. split; [exact Hlim|]. split; [reflexivity|].
      split; [exact Hpace | reflexivity]. }
    destruct (update_count_counts_status_200 DEFAULT_SERVER "T" 34 (- (118)) 1 0
                (Examples.world (1 # 2) (Failed ConnectionError) (1 # 4)))
      as (_ & _ & Hterm).
    destruct (Hterm ltac:(discriminate) Hlim (1 # 4) eq_refl Hpace) as (fuel0 & Hfuel).
    destruct (Hfuel fuel0 (le_n fuel0)) as (w' & Hrun & Hzero).
    destruct (Hzero (fun n => eq_refl)) as (before & Hout).
    exists fuel0, w', before. auto.
  - destruct (update_count_counts_status_200 DEFAULT_SERVER "T" 34 (- (118)) 12 5
                (Examples.flaky (1 # 2) (1 # 10))) as (Hend & _ & _).
    assert (Hrun : exists w',
               simulate_movement 4 DEFAULT_SERVER "T" 34 (- (118)) 12 5
                 (Examples.flaky (1 # 2) (1 # 10)) = Done tt w' /\
               length (exchanges w') = 3%nat /\
               count confirmed (exchanges w') = 2%nat).
    { eexists. split; [vm_compute; reflexivity|]. split; reflexivity. }
    destruct Hrun as (w' & Hrun & Hlen & Hcount).
    destruct (Hend 4%nat w' Hrun) as (sent & before & Hex & Hout & _).
    cbn [Examples.flaky exchanges app] in Hex.
    exists w', sent, before. rewrite <- Hex.
    split; [exact Hrun|]. split; [reflexivity|]. split; [exact Hlen|].
    split; [exact Hcount|]. rewrite Hex. exact Hout.
Defined.

(** C4, as stated, fails when a send comes back with status 201: the
    simulation makes one send, [send_telemetry] returns its response, and
    the last line reports 0 updates. *)
Lemma returned_201_is_not_counted :
  exists w',
    simulate_movement 2 DEFAULT_SERVER "T" 34 (- (118)) 1 1
      (Examples.world (1 # 2) (Examples.replies 201 "") 0) = Done tt w' /\
    map (fun x => sender_result (snd x)) (exchanges w') = [Some (Examples.response 201 "")] /\
    count returned (exchanges w') = 1%nat /\
    last (stdout w') L_rule = L_complete 0.
Proof.
  eexists. split; [vm_compute; reflexivity|].
  split; [reflexivity|]. split; reflexivity.
Qed.

(* ================================================================== *)
(** * The elapsed-time test *)

Lemma simulate_loop_step fuel server token duration interval start st w :
  Py.ltb interval 0 = false ->
  clock w - start < duration ->
  exists w1,
    simulate_loop (S fuel) server token duration interval start st w =
      simulate_loop fuel server token duration interval start (tick_state st w) w1 /\
    exchanges w1 = exchanges w ++ [(tick_request server token st w, next_outcome w)] /\
    clock w1 = clock w + next_took w + interval /\
    net w1 = net w.
Proof.
  intros Hint Htest.
  destruct (simulate_tick_done server token interval st w Hint)
    as (w1 & Htick & Hex & Hclock & _ & _ & Hnet & _).
  exists w1. rewrite simulate_loop_unfold.
  apply ltb_true in Htest. rewrite Htest, Htick. auto.
Qed.

Lemma simulate_loop_stop fuel server token duration interval start st w :
  ~ clock w - start < duration ->
  simulate_loop (S fuel) server token duration interval start st w = Done st w.
Proof.
  intros Htest. rewrite simulate_loop_unfold.
  destruct (Py.ltb (clock w - start) duration) eqn:E; [|reflexivity].
  apply ltb_true in E. contradiction.
Qed.

Lemma simulate_loop_sent fuel server token duration interval start st w st' w' :
  simulate_loop fuel server token duration interval start st w = Done st' w' ->
  exists sent, exchanges w' = exchanges w ++ sent.
Proof.
  intros Hrun. apply simulate_loop_run in Hrun. apply run_from_count in Hrun.
  destruct Hrun as (sent & Hex & _). eauto.
Qed.

(** With duration 12, interval 5 and POSTs that take no time, the loop
    makes three iterations. *)
Lemma three_ticks_in_twelve_seconds fuel server token st w :
  (forall n, snd (net w n) == 0) ->
  exists st' w' sent,
    simulate_loop (4 + fuel) server token 12 5 (clock w) st w = Done st' w' /\
    exchanges w' = exchanges w ++ sent /\
    length sent = 3%nat.
Proof.
  intros Hzero.
  assert (Hint : Py.ltb 5 0 = false) by reflexivity.
  assert (Htook : forall x, net x = net w -> next_took x == 0).
  { intros x Hx. unfold next_took. rewrite Hx. apply Hzero. }
  pose proof (Htook w eq_refl) as Ht0.
  destruct (simulate_loop_step (3 + fuel) server token 12 5 (clock w) st w Hint)
    as (w1 & Hrun1 & Hex1 & Hclock1 & Hnet1); [lra|].
  pose proof (Htook w1 Hnet1) as Ht1.
  destruct (simulate_loop_step (2 + fuel) server token 12 5 (clock w)
              (tick_state st w) w1 Hint)
    as (w2 & Hrun2 & Hex2 & Hclock2 & Hnet2); [rewrite Hclock1; lra|].
  pose proof (Htook w2 (eq_trans Hnet2 Hnet1)) as Ht2.
  destruct (simulate_loop_step (1 + fuel) server token 12 5 (clock w)
              (tick_state (tick_state st w) w1) w2 Hint)
    as (w3 & Hrun3 & Hex3 & Hclock3 & Hnet3); [rewrite Hclock2, Hclock1; lra|].
  pose proof (simulate_loop_stop fuel server token 12 5 (clock w)
                (tick_state (tick_state (tick_state st w) w1) w2) w3) as Hrun4.
  eexists _, w3, _.
  split.
  - change (4 + fuel)%nat with (S (3 + fuel)). rewrite Hrun1.
    change (3 + fuel)%nat with (S (2 + fuel)). rewrite Hrun2.
    change (2 + fuel)%nat with (S (1 + fuel)). rewrite Hrun3.
    change (1 + fuel)%nat with (S fuel). apply Hrun4.
    rewrite Hclock3, Hclock2, Hclock1. lra.
  - rewrite Hex3, Hex2, Hex1, <- !app_assoc. split; reflexivity.
Qed.

Lemma new_exchanges_sent w w' sent :
  exchanges w' = exchanges w ++ sent -> new_exchanges w w' = sent.
Proof.
  intros H. unfold new_exchanges. rewrite H. apply skipn_prefix.
Qed.

(** A finished simulation made no POST exactly when its duration was not
    positive. *)
Lemma no_tick_iff_duration_not_positive
    fuel server token start_lat start_lon duration interval w w' :
  simulate_movement fuel server token start_lat start_lon duration interval w
    = Done tt w' ->
  (length (new_exchanges w w') = 0%nat <-> ~ 0 < duration).
Proof.
  intros Hrun. apply simulate_movement_inv in Hrun.
  destruct Hrun as (st' & w1 & Hloop & ->).
  set (hw := header_world start_lat start_lon duration interval w) in *.
  destruct fuel as [|fuel]; [discriminate|].
  destruct (Qlt_le_dec 0 duration) as [Hpos|Hnon].
  - split; [|intros H; contradiction].
    intros Hlen. exfalso.
    rewrite simulate_loop_unfold in Hloop.
    assert (Htest : Py.ltb (clock hw - clock w) duration = true).
    { apply ltb_true. change (clock hw) with (clock w). lra. }
    rewrite Htest in Hloop.
    destruct (simulate_tick server token interval
                (initial_state start_lat start_lon) hw)
      as [st1 w2| |] eqn:Htick; try discriminate.
    apply simulate_tick_inv in Htick.
    destruct Htick as (_ & _ & Hex & _).
    apply simulate_loop_sent in Hloop. destruct Hloop as (sent & Hex').
    rewrite Hex, <- app_assoc in Hex'.
    change (exchanges hw) with (exchanges w) in Hex'.
    rewrite (new_exchanges_sent w
               (printed (printed w1 L_rule) (L_complete (update_count st')))
               _ Hex') in Hlen.
    cbn in Hlen. discriminate.
  - split; [intros _; lra|]. intros _.
    rewrite simulate_loop_stop in Hloop.
    + inversion Hloop; subst.
      rewrite (new_exchanges_sent w _ []); [reflexivity|].
      rewrite app_nil_r. reflexivity.
    + change (clock hw) with (clock w). lra.
Qed.

(** C6.  The loop tests the elapsed time before each iteration: when
    the time since the start is below the duration it runs one iteration
    and tests again, otherwise it stops at once.  A finished simulation
    has made no iteration exactly when its duration was not positive on
    entry.  With duration 12, interval 5 and sends that take no time it
    makes exactly three iterations, one POST each. *)
Theorem loop_checks_elapsed_time_before_each_tick :
  forall server token start_lat start_lon,
    (forall fuel duration interval start st w,
        (clock w - start < duration ->
         simulate_loop (S fuel) server token duration interval start st w =
           bind (simulate_tick server token interval st)
                (simulate_loop fuel server token duration interval start) w) /\
        (~ clock w - start < duration ->
         simulate_loop (S fuel) server token duration interval start st w =
           Done st w)) /\
    (forall fuel duration interval w w',
        simulate_movement fuel server token start_lat start_lon duration interval w
          = Done tt w' ->
        (length (new_exchanges w w') = 0%nat <-> ~ 0 < duration)) /\
    (forall w,
        (forall n, snd (net w n) == 0) ->
        forall fuel, (4 <= fuel)%nat ->
        exists w',
          simulate_movement fuel server token start_lat start_lon 12 5 w
            = Done tt w' /\
          length (new_exchanges w w') = 3%nat).
Proof.
  intros server token start_lat start_lon. split; [|split].
  - intros fuel duration interval start st w. split.
    + intros Htest. rewrite simulate_loop_unfold.
      apply ltb_true in Htest. rewrite Htest. reflexivity.
    + apply simulate_loop_stop.
  - intros fuel duration interval w w'.
    apply no_tick_iff_duration_not_positive.
  - intros w Hzero fuel Hfuel.
    replace fuel with (4 + (fuel - 4))%nat by lia.
    rewrite simulate_movement_unfold.
    set (hw := header_world start_lat start_lon 12 5 w).
    destruct (three_ticks_in_twelve_seconds (fuel - 4) server token
                (initial_state start_lat start_lon) hw Hzero)
      as (st' & w' & sent & Hrun & Hex & Hlen).
    change (clock hw) with (clock w) in Hrun. rewrite Hrun.
    eexists. split; [reflexivity|].
    rewrite (new_exchanges_sent w _ sent); [exact Hlen|].
    exact Hex.
Qed.

Lemma loop_checks_elapsed_time_before_each_tick_witness :
  (forall n, snd (net (Examples.world (1 # 2) (Examples.replies 200 "") 0) n) == 0) /\
  (4 <= 4)%nat /\
  exists w',
    simulate_movement 4 DEFAULT_SERVER "T" 34 (- (118)) 12 5
      (Examples.world (1 # 2) (Examples.replies 200 "") 0) = Done tt w' /\
    length (new_exchanges (Examples.world (1 # 2) (Examples.replies 200 "") 0) w')
      = 3%nat /\
    (length (new_exchanges (Examples.world (1 # 2) (Examples.replies 200 "") 0) w')
       = 0%nat <-> ~ 0 < 12).
Proof.
  assert (Hzero : forall n,
             snd (net (Examples.world (1 # 2) (Examples.replies 200 "") 0) n) == 0).
  { intros n. reflexivity. }
  split; [exact Hzero|]. split; [apply le_n|].
  destruct (loop_checks_elapsed_time_before_each_tick DEFAULT_SERVER "T" 34 (- (118)))
    as (_ & Hzero_ticks & Hthree).
  destruct (Hthree _ Hzero 4%nat (le_n 4)) as (w' & Hrun & Hlen).
  exists w'. split; [exact Hrun|]. split; [exact Hlen|].
  exact (Hzero_ticks 4%nat 12 5 _ w' Hrun).
Defined.


(* ================================================================== *)
(** * Further properties: requests on the wire *)

Lemma run_from_targets server token interval st0 w0 st w :
  run_from server token interval st0 w0 st w ->
  exists sent,
    exchanges w = exchanges w0 ++ sent /\
    Forall (fun x => req_url (fst x) = telemetry_url server token /\
                     req_headers (fst x) = telemetry_headers) sent.
Proof.
  induction 1 as [|st w st' w' _ IH Htick].
  - exists []. rewrite app_nil_r. split; [reflexivity | constructor].
  - destruct IH as (sent & Hex & Hall).
    apply simulate_tick_inv in Htick. destruct Htick as (_ & _ & Hex' & _).
    exists (sent ++ [(tick_request server token st w, next_outcome w)]).
    split; [rewrite Hex', Hex, app_assoc; reflexivity|].
    apply Forall_app. split; [exact Hall|].
    constructor; [|constructor]. split; reflexivity.
Qed.

(** X1.  Every POST of the program goes to
    [server/api/v1/token/telemetry] with the single header
    [Content-Type: application/json]: the one POST of a call of
    [send_telemetry], the one POST of single-send mode (with the default
    server when [--server] is left out, and the payload built from the
    flags), and every POST of a simulation loop. *)
Theorem every_post_targets_the_device_endpoint :
  (forall server token lat lon batt acc alt w,
      exists result w' req,
        send_telemetry server token lat lon batt acc alt w = Done result w' /\
        exchanges w' = exchanges w ++ [(req, next_outcome w)] /\
        req_url req = (server ++ "/api/v1/" ++ token ++ "/telemetry")%string /\
        req_headers req = [("Content-Type", "application/json")]) /\
  (forall fuel cl tok lat lon w,
      single_send cl tok lat lon ->
      exists w' req,
        main fuel cl w = Done tt w' /\
        exchanges w' = exchanges w ++ [(req, next_outcome w)] /\
        req_url req =
          (match cl_server cl with
           | Some s => s
           | None => "http://52.42.86.26:8081"
           end ++ "/api/v1/" ++ tok ++ "/telemetry")%string /\
        req_headers req = [("Content-Type", "application/json")] /\
        req_data req =
          json_dumps (build_payload (clock w) lat lon
                        (cl_batt cl) (cl_acc cl) (cl_alt cl))) /\
  (forall fuel server token duration interval start st w st' w',
      simulate_loop fuel server token duration interval start st w = Done st' w' ->
      exists sent,
        exchanges w' = exchanges w ++ sent /\
        Forall (fun x =>
                  req_url (fst x) = (server ++ "/api/v1/" ++ token ++ "/telemetry")%string /\
                  req_headers (fst x) = [("Content-Type", "application/json")])
               sent).
Proof.
  split; [|split].
  - intros. rewrite send_telemetry_done. cbv zeta.
    eexists _, _, (telemetry_request server token (clock w) lat lon batt acc alt).
    split; [reflexivity|]. split; [|split; reflexivity].
    world_fields. apply after_post_exchanges.
  - intros fuel cl tok lat lon w Hcl.
    destruct (main_single_done fuel cl tok lat lon w Hcl)
      as (w' & Hrun & Hex & _).
    eexists w', _. split; [exact Hrun|]. split; [exact Hex|].
    cbn [req_url req_headers req_data telemetry_request].
    split; [|split; reflexivity].
    unfold telemetry_url, from_default, DEFAULT_SERVER.
    destruct (cl_server cl); reflexivity.
  - intros fuel server token duration interval start st w st' w' Hrun.
    apply simulate_loop_run in Hrun.
    apply (run_from_targets _ _ _ _ _ _ _ Hrun).
Qed.

Lemma every_post_targets_the_device_endpoint_witness :
  single_send (Examples.single (Some 87%Z) None None) "T" 34 (- (118)) /\
  exists w' req,
    main 0 (Examples.single (Some 87%Z) None None)
      (Examples.world (1 # 2) (Failed Timeout) 0) = Done tt w' /\
    exchanges w' = [] ++ [(req, Failed Timeout)] /\
    req_url req = "http://52.42.86.26:8081/api/v1/T/telemetry".
Proof.
  assert (Hcl : single_send (Examples.single (Some 87%Z) None None) "T" 34 (- (118)))
    by (repeat split).
  split; [exact Hcl|].
  destruct every_post_targets_the_device_endpoint as (_ & Hmain & _).
  destruct (Hmain 0%nat _ _ _ _ (Examples.world (1 # 2) (Failed Timeout) 0) Hcl)
    as (w' & req & Hrun & Hex & Hurl & _).
  exists w', req. split; [exact Hrun|]. split; [exact Hex|]. exact Hurl.
Defined.

(** X2.  The payload lists its keys in a fixed order, [_type], [lat],
    [lon], [tst], then those of [batt], [acc], [alt] that were given, in
    this order; no key occurs twice. *)
Theorem payload_keys_in_order_without_duplicates :
  forall now lat lon batt acc alt,
    map fst (json_members (json_dumps (build_payload now lat lon batt acc alt))) =
      ["_type"; "lat"; "lon"; "tst"]
        ++ key_if batt "batt" ++ key_if acc "acc" ++ key_if alt "alt" /\
    NoDup (map fst (json_members (json_dumps (build_payload now lat lon batt acc alt)))) /\
    length (build_payload now lat lon batt acc alt) =
      (4 + length (key_if batt "batt") + length (key_if acc "acc")
         + length (key_if alt "alt"))%nat.
Proof.
  intros. destruct batt, acc, alt; cbn; (split; [reflexivity|]);
    (split; [|reflexivity]);
    repeat (constructor; [cbn; intuition discriminate|]); constructor.
Qed.

(** X3.  [send_telemetry] returns the response exactly when the POST
    came back with a status outside 400..599, and [None] exactly when the
    POST failed in transport or came back with a 4xx or 5xx status; it
    prints its diagnostic line exactly in the second case. *)
Theorem send_telemetry_result_by_outcome :
  forall server token lat lon batt acc alt w,
  exists result w',
    send_telemetry server token lat lon batt acc alt w = Done result w' /\
    (forall r, result = Some r <->
               next_outcome w = Responded r /\
               ((status_code r < 400)%Z \/ (600 <= status_code r)%Z)) /\
    (result = None <-> send_fails (next_outcome w)) /\
    (result <> None -> stdout w' = stdout w) /\
    (result = None -> exists message, stdout w' = stdout w ++ [L_error_sending message]).
Proof.
  intros. rewrite send_telemetry_done. cbv zeta. fold (next_outcome w).
  eexists _, _. split; [reflexivity|].
  destruct (after_post_frame w
              (telemetry_request server token (clock w) lat lon batt acc alt))
    as (_ & _ & _ & Hout & _).
  world_fields. rewrite Hout.
  destruct (next_outcome w) as [r0|e]; cbn [sender_result sender_diagnostic send_fails].
  - unfold response_ok.
    destruct (Z.leb_spec 400 (status_code r0)), (Z.ltb_spec (status_code r0) 600);
      cbn [andb negb]; rewrite ?app_nil_r;
      repeat split; intros; try discriminate; try congruence; try lia; eauto;
      try (match goal with H : Some _ = Some _ |- _ => inversion H; subst end);
      try (match goal with H : Responded _ = Responded _ /\ _ |- _ =>
             destruct H as [H ?]; inversion H; subst end);
      try lia; auto; try congruence.
  - repeat split; intros; try discriminate; try congruence; eauto.
    destruct H as [H _]. discriminate.
Qed.

(* ================================================================== *)
(** * Further properties: the command line and single-send mode *)

Lemma in_flag_line_iff (o : option Z) (line : Z -> Line) (z : Z) :
  (forall a b, line a = line b -> a = b) ->
  (In (line z) (flag_line o line) <-> o = Some z /\ z <> 0%Z).
Proof.
  intros Hinj. split.
  - intros H. apply in_flag_line in H. destruct H as (z' & Ho & Hnz & Heq).
    apply Hinj in Heq. subst. auto.
  - intros [-> Hnz]. unfold flag_line, Py.truthy_int.
    destruct (Z.eqb_spec z 0); [contradiction|]. left. reflexivity.
Qed.

(** X4.  When the POST of single-send mode comes back with status 200,
    [main] prints the server line and the success block: the success
    line, the latitude, the longitude, then a battery, an accuracy and an
    altitude line, in this order, each one exactly when its flag was
    given with a value other than 0. *)
Theorem success_block_lists_nonzero_flags :
  forall fuel cl tok lat lon w r,
    single_send cl tok lat lon ->
    next_outcome w = Responded r ->
    status_code r = 200%Z ->
    exists w' flags,
      main fuel cl w = Done tt w' /\
      stdout w' =
        stdout w
          ++ [L_sending_to (from_default (cl_server cl) DEFAULT_SERVER);
              L_success; L_latitude lat; L_longitude lon]
          ++ flags /\
      flags = flag_line (cl_batt cl) L_battery
                ++ flag_line (cl_acc cl) L_accuracy
                ++ flag_line (cl_alt cl) L_altitude /\
      (forall b, In (L_battery b) flags <-> cl_batt cl = Some b /\ b <> 0%Z) /\
      (forall a, In (L_accuracy a) flags <-> cl_acc cl = Some a /\ a <> 0%Z) /\
      (forall a, In (L_altitude a) flags <-> cl_alt cl = Some a /\ a <> 0%Z).
Proof.
  intros fuel cl tok lat lon w r Hcl Hout H200.
  destruct (success_block_lines fuel cl tok lat lon w r Hcl Hout H200)
    as (w' & Hrun & Hprinted).
  exists w', (flag_line (cl_batt cl) L_battery
                ++ flag_line (cl_acc cl) L_accuracy
                ++ flag_line (cl_alt cl) L_altitude).
  split; [exact Hrun|]. split; [exact Hprinted|]. split; [reflexivity|].
  assert (Hother : forall (x : Line) o line,
             (forall z, x <> line z) -> ~ In x (flag_line o line)).
  { intros x o line Hne Hin. apply in_flag_line in Hin.
    destruct Hin as (z & _ & _ & Heq). exact (Hne z Heq). }
  split; [|split]; intros z; rewrite !in_app_iff.
  - rewrite (in_flag_line_iff (cl_batt cl) L_battery z) by (intros a b H; congruence).
    split; [|tauto]. intros [H|[H|H]]; [exact H| |]; exfalso;
      revert H; apply Hother; intros; discriminate.
  - rewrite (in_flag_line_iff (cl_acc cl) L_accuracy z) by (intros a b H; congruence).
    split; [|tauto]. intros [H|[H|H]]; [|exact H|]; exfalso;
      revert H; apply Hother; intros; discriminate.
  - rewrite (in_flag_line_iff (cl_alt cl) L_altitude z) by (intros a b H; congruence).
    split; [|tauto]. intros [H|[H|H]]; [| |exact H]; exfalso;
      revert H; apply Hother; intros; discriminate.
Qed.

Lemma success_block_lists_nonzero_flags_witness :
  (single_send (Examples.single (Some 87%Z) (Some 0%Z) None) "T" 34 (- (118)) /\
   next_outcome (Examples.world (1 # 2) (Examples.replies 200 "") 0)
     = Responded (Examples.response 200 "") /\
   status_code (Examples.response 200 "") = 200%Z) /\
  exists w' flags,
    main 0 (Examples.single (Some 87%Z) (Some 0%Z) None)
      (Examples.world (1 # 2) (Examples.replies 200 "") 0) = Done tt w' /\
    stdout w' =
      [] ++ [L_sending_to DEFAULT_SERVER; L_success;
             L_latitude 34; L_longitude (- (118))] ++ flags /\
    flags = [L_battery 87].
Proof.
  assert (Hcl : single_send (Examples.single (Some 87%Z) (Some 0%Z) None)
                  "T" 34 (- (118))) by (repeat split).
  split; [split; [exact Hcl | split; reflexivity]|].
  destruct (success_block_lists_nonzero_flags 0 _ _ _ _
              (Examples.world (1 # 2) (Examples.replies 200 "") 0)
              (Examples.response 200 "") Hcl eq_refl eq_refl)
    as (w' & flags & Hrun & Hout & Hflags & _).
  exists w', flags. split; [exact Hrun|]. split; [exact Hout|]. exact Hflags.
Defined.

(** X5.  The failure report of single-send mode.  When the POST fails
    in transport or comes back with a 4xx or 5xx status, [main] prints
    the server line, the diagnostic of [send_telemetry] and the failure
    line, and nothing else.  When it comes back with another status that
    is not 200, [main] prints the server line, the failure line, the
    status code and the body.  In both cases [main] returns normally. *)
Theorem failure_report_by_outcome :
  forall fuel cl tok lat lon w,
    single_send cl tok lat lon ->
    (send_fails (next_outcome w) ->
     exists w' message,
       main fuel cl w = Done tt w' /\
       stdout w' =
         stdout w
           ++ [L_sending_to (from_default (cl_server cl) DEFAULT_SERVER);
               L_error_sending message; L_failed]) /\
    (forall r,
        next_outcome w = Responded r ->
        ~ (400 <= status_code r < 600)%Z ->
        status_code r <> 200%Z ->
        exists w',
          main fuel cl w = Done tt w' /\
          stdout w' =
            stdout w
              ++ [L_sending_to (from_default (cl_server cl) DEFAULT_SERVER);
                  L_failed; L_status_code (status_code r); L_response (text r)]).
Proof.
  intros fuel cl tok lat lon w Hcl.
  destruct (main_single_done fuel cl tok lat lon w Hcl)
    as (w' & Hrun & _ & Hprinted & _).
  split.
  - intros Hfail.
    destruct (next_outcome w) as [r|e]; cbn [send_fails] in Hfail;
      cbn [sender_result sender_diagnostic] in Hprinted.
    + rewrite (response_ok_error r Hfail) in Hprinted.
      eexists w', _. split; [exact Hrun|]. exact Hprinted.
    + eexists w', _. split; [exact Hrun|]. exact Hprinted.
  - intros r Hout Hnot Hne. rewrite Hout in Hprinted.
    cbn [sender_result sender_diagnostic] in Hprinted.
    assert (Hok : response_ok r = true).
    { unfold response_ok.
      destruct (Z.leb_spec 400 (status_code r)), (Z.ltb_spec (status_code r) 600);
        try reflexivity. lia. }
    rewrite Hok in Hprinted.
    unfold single_report, response_and_200, truthy_response in Hprinted.
    rewrite Hok in Hprinted.
    apply Z.eqb_neq in Hne. rewrite Hne in Hprinted.
    exists w'. split; [exact Hrun|]. exact Hprinted.
Qed.

Lemma failure_report_by_outcome_witness :
  (single_send (Examples.single None None None) "T" 34 (- (118)) /\
   send_fails (next_outcome (Examples.world (1 # 2) (Examples.replies 503 "busy") 0))) /\
  exists w' message,
    main 0 (Examples.single None None None)
      (Examples.world (1 # 2) (Examples.replies 503 "busy") 0) = Done tt w' /\
    stdout w' =
      [] ++ [L_sending_to DEFAULT_SERVER; L_error_sending message; L_failed].
Proof.
  assert (Hcl : single_send (Examples.single None None None) "T" 34 (- (118)))
    by (repeat split).
  assert (Hfail : send_fails
                    (next_outcome (Examples.world (1 # 2) (Examples.replies 503 "busy") 0)))
    by (cbn; lia).
  split; [split; assumption|].
  destruct (failure_report_by_outcome 0 _ _ _ _
              (Examples.world (1 # 2) (Examples.replies 503 "busy") 0) Hcl)
    as (Hfails & _).
  exact (Hfails Hfail).
Defined.

(** X7.  Simulation mode does not look at [--batt], [--acc] and
    [--alt]: with [--simulate], [main] does the same whatever values
    these three flags have, or when they are left out. *)
Theorem simulate_mode_ignores_optional_flags :
  forall fuel cl batt acc alt w,
    cl_simulate cl = true ->
    main fuel (with_optional_flags cl batt acc alt) w = main fuel cl w.
Proof.
  intros fuel cl batt acc alt w Hsim.
  unfold main, parse_args, with_optional_flags, bind.
  cbn [cl_token cl_server cl_lat cl_lon cl_batt cl_acc cl_alt cl_simulate
       cl_duration cl_interval cl_help].
  destruct (cl_help cl); [reflexivity|].
  destruct (cl_token cl) as [tok|]; [|reflexivity].
  unfold ret.
  cbn [args_simulate args_lat args_lon args_server args_token
       args_duration args_interval].
  rewrite Hsim. reflexivity.
Qed.

Lemma simulate_mode_ignores_optional_flags_witness :
  cl_simulate (Examples.simulation 12 5) = true /\
  main 4 (with_optional_flags (Examples.simulation 12 5) (Some 3%Z) (Some 0%Z) None)
    (Examples.world (1 # 2) (Examples.replies 200 "") 0)
  = main 4 (Examples.simulation 12 5)
      (Examples.world (1 # 2) (Examples.replies 200 "") 0).
Proof.
  split; [reflexivity|].
  apply (simulate_mode_ignores_optional_flags 4 (Examples.simulation 12 5)).
  reflexivity.
Defined.

(* ================================================================== *)
(** * Further properties: how long a simulation runs *)

Lemma length_snoc_Q {A} (l : list A) (x : A) :
  inject_Z (Z.of_nat (length (l ++ [x]))) == inject_Z (Z.of_nat (length l)) + 1.
Proof.
  rewrite length_app. cbn [length]. rewrite Nat.add_1_r. apply of_nat_succ_Q.
Qed.

Lemma simulate_loop_timing fuel server token duration interval start st0 w0 st' w' :
  net_ok w0 ->
  simulate_loop fuel server token duration interval start st0 w0 = Done st' w' ->
  exists sent,
    exchanges w' = exchanges w0 ++ sent /\
    duration <= clock w' - start /\
    clock w0 + interval * inject_Z (Z.of_nat (length sent)) <= clock w' /\
    (sent <> [] ->
     clock w0 - start + interval * (inject_Z (Z.of_nat (length sent)) - 1) < duration) /\
    ((forall k, snd (net w0 k) == 0) ->
     clock w' == clock w0 + interval * inject_Z (Z.of_nat (length sent))).
Proof.
  intros Hnet Hrun.
  pose (P := fun (st : SimState) (w : World) =>
    net w = net w0 /\
    exists sent,
      exchanges w = exchanges w0 ++ sent /\
      clock w0 + interval * inject_Z (Z.of_nat (length sent)) <= clock w /\
      (sent <> [] ->
       clock w0 - start + interval * (inject_Z (Z.of_nat (length sent)) - 1) < duration) /\
      ((forall k, snd (net w0 k) == 0) ->
       clock w == clock w0 + interval * inject_Z (Z.of_nat (length sent)))).
  destruct (simulate_loop_rule P server token duration interval start) with
    (fuel := fuel) (st := st0) (w := w0) (st' := st') (w' := w') as [HP Hexit].
  - intros st w st1 w1 (Hn & sent & Hex & Hlo & Hlast & Hzero) Htest Htick.
    apply ltb_true in Htest.
    apply simulate_tick_inv in Htick.
    destruct Htick as (Hint & _ & Hex1 & Hclock & _ & _ & Hnet1 & _).
    apply ltb_false in Hint.
    assert (Htook : 0 <= next_took w).
    { unfold next_took. rewrite Hn. apply Hnet. }
    split; [congruence|].
    exists (sent ++ [(tick_request server token st w, next_outcome w)]).
    split; [rewrite Hex1, Hex, app_assoc; reflexivity|].
    rewrite length_snoc_Q, Hclock.
    set (n := inject_Z (Z.of_nat (length sent))) in *.
    assert (Hmul : interval * (n + 1) == interval * n + interval) by ring.
    assert (Hmul' : interval * (n + 1 - 1) == interval * n) by ring.
    rewrite Hmul, Hmul'.
    split; [lra|]. split; [intros _; lra|].
    intros Hz. specialize (Hzero Hz).
    assert (next_took w == 0) by (unfold next_took; rewrite Hn; apply Hz).
    lra.
  - split; [reflexivity|]. exists []. rewrite app_nil_r.
    split; [reflexivity|]. cbn [length Z.of_nat].
    change (inject_Z 0) with 0.
    split; [lra|]. split; [intros H; contradiction|]. intros _. lra.
  - exact Hrun.
  - destruct HP as (_ & sent & Hex & Hlo & Hlast & Hzero).
    apply ltb_false in Hexit.
    exists sent. repeat split; assumption.
Qed.

Lemma simulate_movement_timing fuel server token start_lat start_lon duration interval w w' :
  net_ok w ->
  simulate_movement fuel server token start_lat start_lon duration interval w
    = Done tt w' ->
  exists sent,
    exchanges w' = exchanges w ++ sent /\
    duration <= clock w' - clock w /\
    interval * inject_Z (Z.of_nat (length sent)) <= clock w' - clock w /\
    (sent <> [] ->
     interval * (inject_Z (Z.of_nat (length sent)) - 1) < duration) /\
    ((forall k, snd (net w k) == 0) ->
     clock w' - clock w == interval * inject_Z (Z.of_nat (length sent))).
Proof.
  intros Hnet Hrun.
  apply simulate_movement_inv in Hrun. destruct Hrun as (st' & w1 & Hloop & ->).
  apply simulate_loop_timing in Hloop; [|exact Hnet].
  destruct Hloop as (sent & Hex & Hdur & Hlo & Hlast & Hzero).
  change (clock (header_world start_lat start_lon duration interval w))
    with (clock w) in *.
  change (net (header_world start_lat start_lon duration interval w))
    with (net w) in *.
  exists sent. split; [exact Hex|].
  change (clock (printed (printed w1 L_rule) (L_complete (update_count st'))))
    with (clock w1).
  split; [exact Hdur|]. split; [lra|]. split.
  - intros Hne. specialize (Hlast Hne). lra.
  - intros Hz. specialize (Hzero Hz). lra.
Qed.

(** X8.  The number of iterations of a finished simulation, over a
    network that takes no negative time: the last iteration started
    before the duration was over, so [n] iterations mean
    [interval * (n - 1) < duration]; and when the POSTs take no time the
    loop stops only once [interval * n] reaches the duration.  With
    instant POSTs the count is the least [n] with
    [duration <= interval * n]. *)
Theorem simulation_tick_count :
  forall fuel server token start_lat start_lon duration interval w w',
    net_ok w ->
    simulate_movement fuel server token start_lat start_lon duration interval w
      = Done tt w' ->
    exists sent,
      exchanges w' = exchanges w ++ sent /\
      (sent <> [] ->
       interval * (inject_Z (Z.of_nat (length sent)) - 1) < duration) /\
      ((forall k, snd (net w k) == 0) ->
       duration <= interval * inject_Z (Z.of_nat (length sent))).
Proof.
  intros fuel server token start_lat start_lon duration interval w w' Hnet Hrun.
  destruct (simulate_movement_timing _ _ _ _ _ _ _ _ _ Hnet Hrun)
    as (sent & Hex & Hdur & _ & Hlast & Hzero).
  exists sent. split; [exact Hex|]. split; [exact Hlast|].
  intros Hz. specialize (Hzero Hz). lra.
Qed.

(** X9.  A finished simulation has lasted at least [duration] seconds
    on the clock, whatever the network did; over a network that takes no
    negative time it has also lasted at least [interval] seconds for each
    of its iterations, and exactly that when the POSTs take no time. *)
Theorem simulation_lasts_at_least_duration :
  forall fuel server token start_lat start_lon duration interval w w',
    simulate_movement fuel server token start_lat start_lon duration interval w
      = Done tt w' ->
    duration <= clock w' - clock w /\
    (net_ok w ->
     exists sent,
       exchanges w' = exchanges w ++ sent /\
       interval * inject_Z (Z.of_nat (length sent)) <= clock w' - clock w /\
       ((forall k, snd (net w k) == 0) ->
        clock w' - clock w == interval * inject_Z (Z.of_nat (length sent)))).
Proof.
  intros fuel server token start_lat start_lon duration interval w w' Hrun.
  split.
  - apply simulate_movement_inv in Hrun. destruct Hrun as (st' & w1 & Hloop & ->).
    destruct (simulate_loop_rule (fun _ _ => True)
                server token duration interval (clock w)) with
      (fuel := fuel) (st := initial_state start_lat start_lon)
      (w := header_world start_lat start_lon duration interval w)
      (st' := st') (w' := w1) as [_ Hexit]; auto.
    apply ltb_false in Hexit. exact Hexit.
  - intros Hnet.
    destruct (simulate_movement_timing _ _ _ _ _ _ _ _ _ Hnet Hrun)
      as (sent & Hex & _ & Hlo & _ & Hzero).
    exists sent. auto.
Qed.

Lemma simulation_tick_count_witness :
  net_ok (Examples.world (1 # 2) (Examples.replies 200 "") 0) /\
  exists fuel w' sent,
    simulate_movement fuel DEFAULT_SERVER "T" 34 (- (118)) 12 5
      (Examples.world (1 # 2) (Examples.replies 200 "") 0) = Done tt w' /\
    exchanges w' = [] ++ sent /\
    (sent <> [] -> 5 * (inject_Z (Z.of_nat (length sent)) - 1) < 12).
Proof.
  assert (Hnet : net_ok (Examples.world (1 # 2) (Examples.replies 200 "") 0)).
  { intros n. cbn. discriminate. }
  split; [exact Hnet|].
  destruct (simulate_movement_terminates DEFAULT_SERVER "T" 34 (- (118)) 12 5
              (Examples.world (1 # 2) (Examples.replies 200 "") 0) eq_refl Hnet)
    as (fuel0 & Hfuel).
  destruct (Hfuel fuel0 (le_n fuel0)) as (w' & Hrun).
  destruct (simulation_tick_count fuel0 _ _ _ _ _ _ _ w' Hnet Hrun)
    as (sent & Hex & Hlast & _).
  exists fuel0, w', sent. auto.
Defined.

Lemma simulation_lasts_at_least_duration_witness :
  exists fuel w',
    simulate_movement fuel DEFAULT_SERVER "T" 34 (- (118)) 12 5
      (Examples.world (1 # 2) (Failed Timeout) (1 # 4)) = Done tt w' /\
    12 <= clock w' - clock (Examples.world (1 # 2) (Failed Timeout) (1 # 4)).
Proof.
  assert (Hnet : net_ok (Examples.world (1 # 2) (Failed Timeout) (1 # 4))).
  { intros n. cbn. discriminate. }
  destruct (simulate_movement_terminates DEFAULT_SERVER "T" 34 (- (118)) 12 5
              (Examples.world (1 # 2) (Failed Timeout) (1 # 4)) eq_refl Hnet)
    as (fuel0 & Hfuel).
  destruct (Hfuel fuel0 (le_n fuel0)) as (w' & Hrun).
  exists fuel0, w'. split; [exact Hrun|].
  apply (simulation_lasts_at_least_duration fuel0 _ _ _ _ _ _ _ w' Hrun).
Defined.

Lemma main_simulate_unfold fuel cl tok lat lon w :
  cl_help cl = false ->
  cl_token cl = Some tok -> cl_simulate cl = true ->
  cl_lat cl = Some lat -> cl_lon cl = Some lon ->
  main fuel cl w =
    simulate_movement fuel (from_default (cl_server cl) DEFAULT_SERVER) tok lat lon
      (inject_Z (from_default (cl_duration cl) 60%Z))
      (inject_Z (from_default (cl_interval cl) 5%Z)) w.
Proof.
  intros Hhelp Htok Hsim Hlat Hlon.
  unfold main, parse_args. rewrite Hhelp, Htok.
  unfold bind at 1, ret at 1.
  cbn [args_simulate args_lat args_lon args_server args_token
       args_duration args_interval].
  rewrite Hsim, Hlat, Hlon. reflexivity.
Qed.

(** X10.  [--simulate] (without a request for help) with a positive
    whole duration [D] and a positive whole interval [I] that
    [time.sleep] takes, at most [sleep_limit] (60 and 5 when the flags
    are left out), over a network whose POSTs take no time makes exactly
    [(D + I - 1) / I] POSTs, the duration divided by the interval and
    rounded up, and returns normally. *)
Theorem simulate_mode_makes_duration_over_interval_posts :
  forall fuel cl tok lat lon w,
    cl_help cl = false ->
    cl_token cl = Some tok -> cl_simulate cl = true ->
    cl_lat cl = Some lat -> cl_lon cl = Some lon ->
    (0 < from_default (cl_duration cl) 60%Z)%Z ->
    (0 < from_default (cl_interval cl) 5%Z)%Z ->
    inject_Z (from_default (cl_interval cl) 5%Z) <= sleep_limit ->
    (forall k, snd (net w k) == 0) ->
    (Z.to_nat (from_default (cl_duration cl) 60%Z) < fuel)%nat ->
    exists w',
      main fuel cl w = Done tt w' /\
      Z.of_nat (length (new_exchanges w w')) =
        ((from_default (cl_duration cl) 60%Z + from_default (cl_interval cl) 5%Z - 1)
           / from_default (cl_interval cl) 5%Z)%Z.
Proof.
  intros fuel cl tok lat lon w Hhelp Htok Hsim Hlat Hlon HD HI Hlimit Hzero Hfuel.
  rewrite (main_simulate_unfold fuel cl tok lat lon w Hhelp Htok Hsim Hlat Hlon).
  set (D := from_default (cl_duration cl) 60%Z) in *.
  set (I := from_default (cl_interval cl) 5%Z) in *.
  set (server := from_default (cl_server cl) DEFAULT_SERVER).
  assert (Hnet : net_ok w).
  { intros k. rewrite (Hzero k). lra. }
  assert (HIq : 0 < inject_Z I).
  { change 0 with (inject_Z 0). rewrite <- Zlt_Qlt. exact HI. }
  destruct fuel as [|m]; [lia|].
  assert (Hrun : exists w',
             simulate_movement (S m) server tok lat lon (inject_Z D) (inject_Z I) w
               = Done tt w').
  { rewrite simulate_movement_unfold.
    destruct (simulate_loop_terminates server tok (inject_Z D) (inject_Z I) (clock w)
                HIq m (initial_state lat lon)
                (header_world lat lon (inject_Z D) (inject_Z I) w) Hnet)
      as (st' & w1 & Hloop).
    - change (clock (header_world lat lon (inject_Z D) (inject_Z I) w))
        with (clock w).
      assert (Hle : inject_Z D <= inject_Z I * inject_Z (Z.of_nat m)).
      { rewrite <- inject_Z_mult, <- Zle_Qle. nia. }
      lra.
    - rewrite Hloop. eauto. }
  destruct Hrun as (w' & Hrun). exists w'. split; [exact Hrun|].
  destruct (simulate_movement_timing _ _ _ _ _ _ _ _ _ Hnet Hrun)
    as (sent & Hex & Hdur & _ & Hlast & Hexact).
  specialize (Hexact Hzero).
  rewrite (new_exchanges_sent w w' sent Hex).
  set (n := Z.of_nat (length sent)) in *.
  assert (Hup : (D <= I * n)%Z).
  { rewrite Zle_Qle, inject_Z_mult. lra. }
  assert (Hne : sent <> []).
  { intros ->. cbn in n. subst n. lia. }
  specialize (Hlast Hne).
  assert (Hlow : (I * (n - 1) < D)%Z).
  { rewrite Zlt_Qlt, inject_Z_mult. unfold Z.sub.
    rewrite inject_Z_plus. exact Hlast. }
  clearbody n D I.
  apply Z.div_unique with (r := (D + I - 1 - I * n)%Z); [left; nia | ring].
Qed.

Lemma simulate_mode_makes_duration_over_interval_posts_witness :
  (forall k, snd (net (Examples.world (1 # 2) (Failed Timeout) 0) k) == 0) /\
  exists w',
    main 61 (mkCommandLine (Some "T") None (Some 34) (Some (- (118)))
               None None None true None None false)
      (Examples.world (1 # 2) (Failed Timeout) 0) = Done tt w' /\
    Z.of_nat (length (new_exchanges (Examples.world (1 # 2) (Failed Timeout) 0) w'))
      = 12%Z.
Proof.
  assert (Hzero : forall k,
             snd (net (Examples.world (1 # 2) (Failed Timeout) 0) k) == 0)
    by (intros k; reflexivity).
  split; [exact Hzero|].
  apply (simulate_mode_makes_duration_over_interval_posts 61
           (mkCommandLine (Some "T") None (Some 34) (Some (- (118)))
              None None None true None None false)
           "T" 34 (- (118)) (Examples.world (1 # 2) (Failed Timeout) 0));
    try reflexivity; try exact Hzero.
  - cbn. discriminate.
  - cbn. lia.
Defined.

(* ================================================================== *)
(** * Further properties: what a simulation prints *)

Lemma update_numbers_app l1 l2 :
  update_numbers (l1 ++ l2) = update_numbers l1 ++ update_numbers l2.
Proof. unfold update_numbers. apply flat_map_app. Qed.

Lemma failed_numbers_app l1 l2 :
  failed_numbers (l1 ++ l2) = failed_numbers l1 ++ failed_numbers l2.
Proof. unfold failed_numbers. apply flat_map_app. Qed.

Lemma diagnostic_has_no_numbers o :
  update_numbers (sender_diagnostic o) = [] /\
  failed_numbers (sender_diagnostic o) = [].
Proof.
  destruct o as [r|e]; cbn; [destruct (response_ok r)|]; split; reflexivity.
Qed.

Lemma run_from_reports server token interval st0 w0 st w :
  update_count st0 = 0%Z ->
  run_from server token interval st0 w0 st w ->
  exists sent lines,
    exchanges w = exchanges w0 ++ sent /\
    stdout w = stdout w0 ++ lines /\
    update_count st = Z.of_nat (count confirmed sent) /\
    update_numbers lines = map Z.of_nat (seq 1 (count confirmed sent)) /\
    (length (failed_numbers lines) + count confirmed sent)%nat = length sent.
Proof.
  intros H0 Hreach.
  induction Hreach as [|st w st' w' Hreach IH Htick].
  - exists [], []. rewrite !app_nil_r. cbn. auto.
  - destruct IH as (sent & lines & Hex & Hout & Hcount & Hnums & Hfailed).
    apply simulate_tick_inv in Htick.
    destruct Htick as (_ & -> & Hex' & _ & _ & _ & _ & Hout' & _).
    exists (sent ++ [(tick_request server token st w, next_outcome w)]),
           (lines ++ sender_diagnostic (next_outcome w) ++ [tick_report st w]).
    split; [rewrite Hex', Hex, app_assoc; reflexivity|].
    split; [rewrite Hout', Hout, <- !app_assoc; reflexivity|].
    destruct (diagnostic_has_no_numbers (next_outcome w)) as [Hd1 Hd2].
    rewrite !update_numbers_app, !failed_numbers_app, Hd1, Hd2, count_app.
    cbn [app update_count tick_state]. unfold tick_count, tick_report.
    unfold count at 2 4 6. cbn [filter]. unfold confirmed at 2 4 6. cbn [snd].
    destruct (response_and_200 (sender_result (next_outcome w))); cbn [length].
    + change (update_numbers [L_update ?t ?n ?a ?b ?c ?d]) with [n].
      change (failed_numbers [L_update ?t ?n ?a ?b ?c ?d]) with (@nil Z).
      rewrite !length_app, ?app_nil_r. cbn [length].
      split; [rewrite Hcount; lia|].
      rewrite Nat.add_1_r, seq_S, map_app, Hnums. cbn [map].
      split; [|lia]. f_equal. f_equal. rewrite Hcount. lia.
    + change (update_numbers [L_failed_update ?n]) with (@nil Z).
      change (failed_numbers [L_failed_update ?n]) with [n].
      rewrite !length_app, ?app_nil_r, ?Nat.add_0_r. cbn [length].
      split; [exact Hcount|]. split; [exact Hnums | lia].
Qed.

(** X13.  What a finished simulation prints: the four header lines,
    then the lines of its iterations, then the rule and the completion
    line with the final count.  Among the lines of the iterations, the
    update lines are numbered 1, 2, ... up to the final count, without a
    gap, and there is one failure line for every other send. *)
Theorem simulation_output_numbers_updates_consecutively :
  forall fuel server token start_lat start_lon duration interval w w',
    simulate_movement fuel server token start_lat start_lon duration interval w
      = Done tt w' ->
    exists sent lines,
      exchanges w' = exchanges w ++ sent /\
      stdout w' =
        stdout w
          ++ [L_starting; L_initial_position start_lat start_lon;
              L_duration_interval duration interval; L_rule]
          ++ lines
          ++ [L_rule; L_complete (Z.of_nat (count confirmed sent))] /\
      update_numbers lines = map Z.of_nat (seq 1 (count confirmed sent)) /\
      length (failed_numbers lines) = (length sent - count confirmed sent)%nat.
Proof.
  intros fuel server token start_lat start_lon duration interval w w' Hrun.
  apply simulate_movement_inv in Hrun. destruct Hrun as (st' & w1 & Hloop & ->).
  apply simulate_loop_run in Hloop.
  apply run_from_reports in Hloop; [|reflexivity].
  destruct Hloop as (sent & lines & Hex & Hout & Hcount & Hnums & Hfailed).
  exists sent, lines.
  split; [exact Hex|].
  split.
  - unfold printed. world_fields. rewrite Hout, Hcount.
    unfold header_world, printed. world_fields.
    rewrite <- !app_assoc. reflexivity.
  - split; [exact Hnums | lia].
Qed.

Lemma simulation_output_numbers_updates_consecutively_witness :
  exists fuel w' sent lines,
    simulate_movement fuel DEFAULT_SERVER "T" 34 (- (118)) 12 5
      (Examples.world (1 # 2) (Examples.replies 200 "") 0) = Done tt w' /\
    exchanges w' = [] ++ sent /\
    update_numbers lines = map Z.of_nat (seq 1 (count confirmed sent)).
Proof.
  assert (Hnet : net_ok (Examples.world (1 # 2) (Examples.replies 200 "") 0)).
  { intros n. cbn. discriminate. }
  destruct (simulate_movement_terminates DEFAULT_SERVER "T" 34 (- (118)) 12 5
              (Examples.world (1 # 2) (Examples.replies 200 "") 0) eq_refl Hnet)
    as (fuel0 & Hfuel).
  destruct (Hfuel fuel0 (le_n fuel0)) as (w' & Hrun).
  destruct (simulation_output_numbers_updates_consecutively fuel0 _ _ _ _ _ _ _ w' Hrun)
    as (sent & lines & Hex & _ & Hnums & _).
  exists fuel0, w', sent, lines. auto.
Defined.

(* ================================================================== *)
(** * Further properties: timestamps *)

Lemma int_monotone (x y : Q) : x <= y -> (Py.int x <= Py.int y)%Z.
Proof.
  unfold Qle, Py.int. destruct x as [a b], y as [c d]. cbn [Qnum Qden].
  intros H.
  rewrite <- (Z.quot_mul_cancel_r a (Zpos b) (Zpos d)) by lia.
  rewrite <- (Z.quot_mul_cancel_r c (Zpos d) (Zpos b)) by lia.
  rewrite (Z.mul_comm (Zpos d) (Zpos b)).
  apply Z.quot_le_mono; lia.
Qed.

Lemma StronglySorted_snoc (l : list Z) (t : Z) :
  StronglySorted Z.le l -> Forall (fun x => (x <= t)%Z) l ->
  StronglySorted Z.le (l ++ [t]).
Proof.
  induction 1 as [|a l Hs IH Ha]; intros Hall; cbn.
  - constructor; constructor.
  - inversion Hall; subst. constructor; [apply IH; assumption|].
    apply Forall_app. split; [exact Ha|]. constructor; [assumption|constructor].
Qed.

Lemma request_tst_tick server token st w :
  request_tst (tick_request server token st w) = Some (Py.int (clock w)).
Proof.
  unfold request_tst, tick_request, telemetry_request. cbn [req_data].
  destruct (build_payload_members (clock w)
              (Py.round (tick_lat st w) 6) (Py.round (tick_lon st w) 6)
              (Some (Py.int (tick_battery st w)))
              (Some (tick_accuracy w)) (Some (tick_altitude w)))
    as (_ & _ & _ & Htst & _).
  rewrite Htst. reflexivity.
Qed.

Lemma run_from_timestamps server token interval st0 w0 st w :
  net_ok w0 ->
  run_from server token interval st0 w0 st w ->
  exists sent tsts,
    exchanges w = exchanges w0 ++ sent /\
    map (fun x => request_tst (fst x)) sent = map Some tsts /\
    StronglySorted Z.le tsts /\
    Forall (fun t => (Py.int (clock w0) <= t <= Py.int (clock w))%Z) tsts /\
    clock w0 <= clock w /\
    net w = net w0.
Proof.
  intros Hnet Hreach.
  induction Hreach as [|st w st' w' Hreach IH Htick].
  - exists [], []. rewrite app_nil_r. cbn.
    repeat split; try constructor. lra.
  - destruct IH as (sent & tsts & Hex & Htsts & Hsorted & Hall & Hclock & Hn).
    apply simulate_tick_inv in Htick.
    destruct Htick as (Hint & _ & Hex' & Hclock' & _ & _ & Hn' & _).
    apply ltb_false in Hint.
    assert (Htook : 0 <= next_took w).
    { unfold next_took. rewrite Hn. apply Hnet. }
    assert (Hmono : clock w <= clock w') by (rewrite Hclock'; lra).
    exists (sent ++ [(tick_request server token st w, next_outcome w)]),
           (tsts ++ [Py.int (clock w)]).
    split; [rewrite Hex', Hex, app_assoc; reflexivity|].
    split.
    { rewrite !map_app, Htsts. cbn [map fst].
      rewrite request_tst_tick. reflexivity. }
    split.
    { apply StronglySorted_snoc; [exact Hsorted|].
      eapply Forall_impl; [|exact Hall]. intros t Ht. cbv beta in Ht. lia. }
    split.
    { pose proof (int_monotone _ _ Hmono) as Hi.
      pose proof (int_monotone _ _ Hclock) as Hi0.
      apply Forall_app. split.
      - eapply Forall_impl; [|exact Hall]. intros t Ht. cbv beta in Ht. lia.
      - constructor; [lia | constructor]. }
    split; [lra | congruence].
Qed.

(** X14.  Over a network that takes no negative time, every request of
    a finished simulation has a [tst], the whole seconds of the clock at
    the moment of the send, and these never decrease from one request to
    the next; all lie between the clock at the start and at the end. *)
Theorem simulation_timestamps_never_decrease :
  forall fuel server token start_lat start_lon duration interval w w',
    net_ok w ->
    simulate_movement fuel server token start_lat start_lon duration interval w
      = Done tt w' ->
    exists sent tsts,
      exchanges w' = exchanges w ++ sent /\
      map (fun x => request_tst (fst x)) sent = map Some tsts /\
      StronglySorted Z.le tsts /\
      Forall (fun t => (Py.int (clock w) <= t <= Py.int (clock w'))%Z) tsts.
Proof.
  intros fuel server token start_lat start_lon duration interval w w' Hnet Hrun.
  apply simulate_movement_inv in Hrun. destruct Hrun as (st' & w1 & Hloop & ->).
  apply simulate_loop_run in Hloop.
  apply run_from_timestamps in Hloop; [|exact Hnet].
  destruct Hloop as (sent & tsts & Hex & Htsts & Hsorted & Hall & _).
  exists sent, tsts. auto.
Qed.

Lemma simulation_timestamps_never_decrease_witness :
  net_ok (Examples.world (1 # 2) (Examples.replies 200 "") (1 # 3)) /\
  exists fuel w' sent tsts,
    simulate_movement fuel DEFAULT_SERVER "T" 34 (- (118)) 12 5
      (Examples.world (1 # 2) (Examples.replies 200 "") (1 # 3)) = Done tt w' /\
    exchanges w' = [] ++ sent /\
    map (fun x => request_tst (fst x)) sent = map Some tsts /\
    StronglySorted Z.le tsts.
Proof.
  assert (Hnet : net_ok (Examples.world (1 # 2) (Examples.replies 200 "") (1 # 3))).
  { intros n. cbn. discriminate. }
  split; [exact Hnet|].
  destruct (simulate_movement_terminates DEFAULT_SERVER "T" 34 (- (118)) 12 5
              (Examples.world (1 # 2) (Examples.replies 200 "") (1 # 3)) eq_refl Hnet)
    as (fuel0 & Hfuel).
  destruct (Hfuel fuel0 (le_n fuel0)) as (w' & Hrun).
  destruct (simulation_timestamps_never_decrease fuel0 _ _ _ _ _ _ _ w' Hnet Hrun)
    as (sent & tsts & Hex & Htsts & Hsorted & _).
  exists fuel0, w', sent, tsts. auto.
Defined.

(* ================================================================== *)
(** * Further properties: a failed send changes nothing that follows *)

Lemma tick_same server token st1 st2 w1 w2 :
  same_but_outcomes w1 w2 -> same_position st1 st2 ->
  tick_request server token st1 w1 = tick_request server token st2 w2 /\
  same_position (tick_state st1 w1) (tick_state st2 w2) /\
  next_took w1 = next_took w2.
Proof.
  intros (Hclock & Hrng & Hpos & Hlen & Htook) (Hlat & Hlon & Hbatt).
  unfold tick_request, same_position, tick_state, tick_lat, tick_lon,
    tick_battery, tick_drain, tick_accuracy, tick_altitude,
    drawn_uniform, drawn_randint, next_took.
  cbn [current_lat current_lon battery].
  rewrite Hclock, Hrng, Hpos, Hlat, Hlon, Hbatt, Hlen, Htook.
  repeat split.
Qed.

Lemma simulate_loop_same server token duration interval start fuel :
  forall st1 st2 w1 w2 st1' w1',
    same_but_outcomes w1 w2 -> same_position st1 st2 ->
    simulate_loop fuel server token duration interval start st1 w1 = Done st1' w1' ->
    exists st2' w2' sent1 sent2,
      simulate_loop fuel server token duration interval start st2 w2 = Done st2' w2' /\
      exchanges w1' = exchanges w1 ++ sent1 /\
      exchanges w2' = exchanges w2 ++ sent2 /\
      map fst sent1 = map fst sent2 /\
      same_position st1' st2' /\
      clock w1' = clock w2'.
Proof.
  induction fuel as [|fuel IH]; intros st1 st2 w1 w2 st1' w1' Hw Hst Hrun;
    [discriminate|].
  rewrite simulate_loop_unfold in Hrun. rewrite simulate_loop_unfold.
  assert (Hclock : clock w1 = clock w2) by apply Hw.
  rewrite <- Hclock.
  destruct (Py.ltb (clock w1 - start) duration).
  - destruct (simulate_tick server token interval st1 w1) as [s1 x1| |] eqn:Htick1;
      try discriminate.
    apply simulate_tick_inv in Htick1.
    destruct Htick1 as (Hint & -> & Hex1 & Hclock1 & Hrng1 & Hpos1 & Hnet1 & _).
    destruct (simulate_tick_done server token interval st2 w2 Hint)
      as (x2 & Htick2 & Hex2 & Hclock2 & Hrng2 & Hpos2 & Hnet2 & _).
    rewrite Htick2.
    destruct (tick_same server token st1 st2 w1 w2 Hw Hst) as (Hreq & Hst' & Htook).
    destruct Hw as (_ & Hrng & Hpos & Hlen & Hlat).
    assert (Hx : same_but_outcomes x1 x2).
    { unfold same_but_outcomes.
      rewrite Hclock1, Hclock2, Hrng1, Hrng2, Hpos1, Hpos2, Hex1, Hex2,
        Hnet1, Hnet2, !length_app, Htook, Hclock, Hrng, Hpos, Hlen.
      repeat split. exact Hlat. }
    destruct (IH _ _ _ _ _ _ Hx Hst' Hrun)
      as (st2' & w2' & sent1 & sent2 & Hrun2 & He1 & He2 & Hmap & Hst'' & Hc).
    exists st2', w2',
      ((tick_request server token st1 w1, next_outcome w1) :: sent1),
      ((tick_request server token st2 w2, next_outcome w2) :: sent2).
    split; [exact Hrun2|].
    split; [rewrite He1, Hex1, <- app_assoc; reflexivity|].
    split; [rewrite He2, Hex2, <- app_assoc; reflexivity|].
    split; [cbn [map fst]; rewrite Hreq, Hmap; reflexivity|].
    split; assumption.
  - inversion Hrun; subst.
    exists st2, w2, [], []. rewrite !app_nil_r. repeat split; auto; apply Hst.
Qed.

(** X15.  What the POSTs come back with changes neither how many sends
    a simulation makes nor what they carry: two simulations started with
    the same arguments in worlds that differ at most in the outcomes of
    the POSTs (same clock, same generator, same latencies) send the same
    requests in the same order and end at the same time. *)
Theorem simulation_requests_do_not_depend_on_outcomes :
  forall fuel server token start_lat start_lon duration interval w1 w2 w1',
    same_but_outcomes w1 w2 ->
    simulate_movement fuel server token start_lat start_lon duration interval w1
      = Done tt w1' ->
    exists w2' sent1 sent2,
      simulate_movement fuel server token start_lat start_lon duration interval w2
        = Done tt w2' /\
      exchanges w1' = exchanges w1 ++ sent1 /\
      exchanges w2' = exchanges w2 ++ sent2 /\
      map fst sent1 = map fst sent2 /\
      clock w1' = clock w2'.
Proof.
  intros fuel server token start_lat start_lon duration interval w1 w2 w1' Hw Hrun.
  apply simulate_movement_inv in Hrun. destruct Hrun as (st1' & x1 & Hloop & ->).
  assert (Hclock : clock w1 = clock w2) by apply Hw.
  assert (Hhw : same_but_outcomes
                  (header_world start_lat start_lon duration interval w1)
                  (header_world start_lat start_lon duration interval w2))
    by exact Hw.
  destruct (simulate_loop_same server token duration interval (clock w1) fuel
              _ (initial_state start_lat start_lon) _ _ _ _ Hhw
              (conj eq_refl (conj eq_refl eq_refl)) Hloop)
    as (st2' & x2 & sent1 & sent2 & Hrun2 & He1 & He2 & Hmap & _ & Hc).
  rewrite simulate_movement_unfold, <- Hclock, Hrun2.
  eexists _, sent1, sent2. split; [reflexivity|].
  split; [exact He1|]. split; [exact He2|]. split; [exact Hmap | exact Hc].
Qed.

Lemma simulation_requests_do_not_depend_on_outcomes_witness :
  same_but_outcomes (Examples.world (1 # 2) (Examples.replies 200 "") 0)
                    (Examples.world (1 # 2) (Failed ConnectionError) 0) /\
  exists fuel w1' w2' sent1 sent2,
    simulate_movement fuel DEFAULT_SERVER "T" 34 (- (118)) 12 5
      (Examples.world (1 # 2) (Examples.replies 200 "") 0) = Done tt w1' /\
    simulate_movement fuel DEFAULT_SERVER "T" 34 (- (118)) 12 5
      (Examples.world (1 # 2) (Failed ConnectionError) 0) = Done tt w2' /\
    exchanges w1' = [] ++ sent1 /\
    exchanges w2' = [] ++ sent2 /\
    map fst sent1 = map fst sent2.
Proof.
  assert (Hw : same_but_outcomes
                 (Examples.world (1 # 2) (Examples.replies 200 "") 0)
                 (Examples.world (1 # 2) (Failed ConnectionError) 0))
    by (repeat split).
  split; [exact Hw|].
  assert (Hnet : net_ok (Examples.world (1 # 2) (Examples.replies 200 "") 0)).
  { intros n. cbn. discriminate. }
  destruct (simulate_movement_terminates DEFAULT_SERVER "T" 34 (- (118)) 12 5
              (Examples.world (1 # 2) (Examples.replies 200 "") 0) eq_refl Hnet)
    as (fuel0 & Hfuel).
  destruct (Hfuel fuel0 (le_n fuel0)) as (w1' & Hrun).
  destruct (simulation_requests_do_not_depend_on_outcomes fuel0 _ _ _ _ _ _ _ _ w1'
              Hw Hrun) as (w2' & sent1 & sent2 & Hrun2 & He1 & He2 & Hmap & _).
  exists fuel0, w1', w2', sent1, sent2. auto.
Defined.

(* ================================================================== *)
(** * Further properties: a negative interval *)

(** X16.  With a negative interval that [time.sleep] refuses with its
    [ValueError] (from [sleep_floor] up to 0) and a positive duration a
    simulation does not finish: after the header it makes one send,
    prints the line of that iteration, and ends in that [ValueError]; the
    completion line is never printed. *)
Theorem negative_interval_ends_in_value_error :
  forall fuel server token start_lat start_lon duration interval w,
    sleep_floor <= interval -> interval < 0 -> 0 < duration ->
    exists msg w' req line,
      simulate_movement (S fuel) server token start_lat start_lon duration interval w
        = Raised (ValueError msg) w' /\
      exchanges w' = exchanges w ++ [(req, next_outcome w)] /\
      stdout w' =
        stdout w
          ++ [L_starting; L_initial_position start_lat start_lon;
              L_duration_interval duration interval; L_rule]
          ++ sender_diagnostic (next_outcome w) ++ [line] /\
      (forall n, line <> L_complete n).
Proof.
  intros fuel server token start_lat start_lon duration interval w Hfloor Hneg Hpos.
  rewrite simulate_movement_unfold, simulate_loop_unfold.
  set (hw := header_world start_lat start_lon duration interval w).
  assert (Htest : Py.ltb (clock hw - clock w) duration = true).
  { apply ltb_true. change (clock hw) with (clock w). lra. }
  rewrite Htest.
  assert (Hint : Py.ltb interval 0 = true) by (apply ltb_true; exact Hneg).
  destruct (simulate_tick_raises server token interval
              (initial_state start_lat start_lon) hw Hint)
    as (msg & w' & Htick & Hex & Hout).
  rewrite Htick.
  exists msg, w', (tick_request server token (initial_state start_lat start_lon) hw),
    (tick_report (initial_state start_lat start_lon) hw).
  split; [reflexivity|]. split; [exact Hex|]. split.
  - rewrite Hout. unfold hw, header_world, printed. world_fields.
    rewrite <- !app_assoc. reflexivity.
  - intros n. unfold tick_report. destruct (response_and_200 _); discriminate.
Qed.

Lemma negative_interval_ends_in_value_error_witness :
  (sleep_floor <= - (1) /\ - (1) < 0 /\ 0 < 10) /\
  exists msg w' req (line : Line),
    simulate_movement 1 DEFAULT_SERVER "T" 34 (- (118)) 10 (- (1))
      (Examples.world (1 # 2) (Examples.replies 200 "") 0)
      = Raised (ValueError msg) w' /\
    exchanges w' = [] ++ [(req, Examples.replies 200 "")] /\
    forall n, line <> L_complete n.
Proof.
  assert (Hfloor : sleep_floor <= - (1)) by (cbn; discriminate).
  split; [split; [exact Hfloor | split; reflexivity]|].
  destruct (negative_interval_ends_in_value_error 0 DEFAULT_SERVER "T" 34 (- (118))
              10 (- (1)) (Examples.world (1 # 2) (Examples.replies 200 "") 0)
              Hfloor eq_refl eq_refl)
    as (msg & w' & req & line & Hrun & Hex & _ & Hline).
  exists msg, w', req, line. auto.
Defined.

(* ================================================================== *)
(** * Further properties: the battery values on the wire *)

Lemma StronglySorted_ge_snoc (l : list Z) (b : Z) :
  StronglySorted Z.ge l -> Forall (fun x => (x >= b)%Z) l ->
  StronglySorted Z.ge (l ++ [b]).
Proof.
  induction 1 as [|a l Hs IH Ha]; intros Hall; cbn.
  - constructor; constructor.
  - inversion Hall; subst. constructor; [apply IH; assumption|].
    apply Forall_app. split; [exact Ha|]. constructor; [assumption|constructor].
Qed.

Lemma int_below (x : Q) (k : Z) :
  0 <= x -> x < inject_Z k -> (Py.int x < k)%Z.
Proof.
  intros H0 Hk. rewrite (int_nonneg x H0). rewrite Zlt_Qlt.
  eapply Qle_lt_trans; [apply Qfloor_le | exact Hk].
Qed.

Lemma request_batt_tick server token st w :
  request_batt (tick_request server token st w) = Some (Py.int (tick_battery st w)).
Proof.
  unfold request_batt, tick_request, telemetry_request. cbn [req_data].
  destruct (build_payload_members (clock w)
              (Py.round (tick_lat st w) 6) (Py.round (tick_lon st w) 6)
              (Some (Py.int (tick_battery st w)))
              (Some (tick_accuracy w)) (Some (tick_altitude w)))
    as (_ & _ & _ & _ & Hbatt & _).
  rewrite Hbatt. reflexivity.
Qed.

Lemma run_from_batteries_sent server token interval lat lon w0 st w :
  rng_ok w0 ->
  run_from server token interval (initial_state lat lon) w0 st w ->
  exists sent batts,
    exchanges w = exchanges w0 ++ sent /\
    map (fun x => request_batt (fst x)) sent = map Some batts /\
    StronglySorted Z.ge batts /\
    Forall (fun b => (Py.int (battery st) <= b <= 99)%Z) batts /\
    0 <= battery st /\
    (sent <> [] -> battery st <= 100 - (1 # 10)).
Proof.
  intros Hok Hreach.
  induction Hreach as [|st w st' w' Hreach IH Htick].
  - exists [], []. rewrite app_nil_r. cbn.
    repeat split; try constructor; try lra. intros H. contradiction.
  - destruct IH as (sent & batts & Hex & Hbatts & Hsorted & Hall & Hb0 & Hb99).
    assert (Hokw : rng_ok w).
    { unfold rng_ok. rewrite (run_from_rng _ _ _ _ _ _ _ Hreach). exact Hok. }
    pose proof (run_from_battery _ _ _ _ _ _ _ _ Hok Hreach) as [_ Hb100].
    apply simulate_tick_inv in Htick.
    destruct Htick as (_ & -> & Hex' & _).
    destruct (tick_battery_bounds st w Hokw Hb0) as [Ht0 Ht1].
    destruct (tick_drain_bounds w Hokw) as [Hd1 _].
    assert (Htop : tick_battery st w <= 100 - (1 # 10)).
    { unfold tick_battery, Py.max.
      destruct (Py.ltb 0 (battery st - tick_drain w)); lra. }
    pose proof (int_monotone _ _ Ht1) as Hmono.
    assert (H99 : (Py.int (tick_battery st w) <= 99)%Z).
    { assert ((Py.int (tick_battery st w) < 100)%Z); [|lia].
      apply int_below; [exact Ht0|]. change (inject_Z 100) with 100. lra. }
    exists (sent ++ [(tick_request server token st w, next_outcome w)]),
           (batts ++ [Py.int (tick_battery st w)]).
    cbn [battery tick_state].
    split; [rewrite Hex', Hex, app_assoc; reflexivity|].
    split.
    { rewrite !map_app, Hbatts. cbn [map fst].
      rewrite request_batt_tick. reflexivity. }
    split.
    { apply StronglySorted_ge_snoc; [exact Hsorted|].
      eapply Forall_impl; [|exact Hall]. intros b Hb. cbv beta in Hb. lia. }
    split.
    { apply Forall_app. split.
      - eapply Forall_impl; [|exact Hall]. intros b Hb. cbv beta in Hb. lia.
      - constructor; [lia | constructor]. }
    split; [exact Ht0|]. intros _. exact Htop.
Qed.

(** X17.  The battery values a simulation sends never increase from one
    request to the next, and none exceeds 99: the first drain is taken
    before the first send. *)
Theorem simulation_sends_non_increasing_battery :
  forall fuel server token duration interval start start_lat start_lon w st' w',
    rng_ok w ->
    simulate_loop fuel server token duration interval start
      (initial_state start_lat start_lon) w = Done st' w' ->
    exists sent batts,
      exchanges w' = exchanges w ++ sent /\
      map (fun x => request_batt (fst x)) sent = map Some batts /\
      StronglySorted Z.ge batts /\
      Forall (fun b => (0 <= b <= 99)%Z) batts.
Proof.
  intros fuel server token duration interval start start_lat start_lon w st' w'
    Hok Hrun.
  apply simulate_loop_run in Hrun.
  destruct (run_from_batteries_sent _ _ _ _ _ _ _ _ Hok Hrun)
    as (sent & batts & Hex & Hbatts & Hsorted & Hall & Hb0 & _).
  exists sent, batts. split; [exact Hex|]. split; [exact Hbatts|].
  split; [exact Hsorted|].
  eapply Forall_impl; [|exact Hall]. intros b Hb. cbv beta in Hb.
  assert ((0 <= Py.int (battery st'))%Z).
  { apply (int_bounds (battery st') 0 100); [exact Hb0 | exact Hb0 |].
    change (inject_Z 100) with 100.
    apply (run_from_battery _ _ _ _ _ _ _ _ Hok Hrun). }
  lia.
Qed.

Lemma simulation_sends_non_increasing_battery_witness :
  rng_ok (Examples.world (1 # 3) (Examples.replies 200 "") 0) /\
  exists st' w' sent batts,
    simulate_loop 4 DEFAULT_SERVER "T" 12 5 0 (initial_state 34 (- (118)))
      (Examples.world (1 # 3) (Examples.replies 200 "") 0) = Done st' w' /\
    exchanges w' = [] ++ sent /\
    map (fun x => request_batt (fst x)) sent = map Some batts /\
    StronglySorted Z.ge batts.
Proof.
  assert (Hok : rng_ok (Examples.world (1 # 3) (Examples.replies 200 "") 0)).
  { intros n. cbn. split; [discriminate | reflexivity]. }
  split; [exact Hok|].
  destruct (simulate_loop_terminates DEFAULT_SERVER "T" 12 5 0 eq_refl 3
              (initial_state 34 (- (118)))
              (Examples.world (1 # 3) (Examples.replies 200 "") 0))
    as (st' & w' & Hrun).
  { intros n. cbn. discriminate. }
  { cbn. discriminate. }
  destruct (simulation_sends_non_increasing_battery 4 _ _ _ _ _ _ _ _ st' w' Hok Hrun)
    as (sent & batts & Hex & Hbatts & Hsorted & _).
  exists st', w', sent, batts. auto.
Defined.
